(** * eFlexPwm: the Timer class (source/eFlexPwmTimer.cpp)

    A shallow embedding of [eFlex::Timer].  A Timer coordinates up to four
    PWM submodules that share one register block.  Every method is embedded
    as a computation in a small state monad; the state holds the Timer
    object itself ([this]), the global submodule table [SmList] and a
    journal of every call made to an external collaborator (register block
    primitives, submodules, crossbar, SDK). *)

From Stdlib Require Import List ZArith Bool Arith Lia.
Import ListNotations.

Module eFlex.

(** ** Constants and external types *)

(** Modelled from the spec: the header that declares [NofTimers],
    [NofSubmodules] and the unit indices [Pwm1] .. [Pwm4] is absent; the spec
    fixes four timers (indexed 0..3) with four submodule slots each, and the
    source comments say index 0 is PWM1. *)
Definition NofTimers : nat := 4.
Definition NofSubmodules : nat := 4.
Definition Pwm1 : nat := 0.
Definition Pwm2 : nat := 1.
Definition Pwm3 : nat := 2.
Definition Pwm4 : nat := 3.

(** Modelled from the spec: the register block of one hardware unit, known
    only through its handle.  [PWM] is the global array of handles that the
    constructor reads. *)
Inductive PWM_Type : Type :=
| RegisterBlock (unit_index : nat).

Definition PWM (index : nat) : PWM_Type := RegisterBlock index.

(** SDK enumerations and the SDK fault record are passed through untouched;
    they are kept as the integers that identify them. *)
Definition pwm_level_select_t := Z.
Definition pwm_fault_state_t := Z.
Definition pwm_fault_param_t := Z.

(** [FaultConfig::kPwmConfig()] yields the hardware-native record. *)
Record FaultConfig : Type := mkFaultConfig {
  kPwmConfig : pwm_fault_param_t
}.

(** The crossbar output identifiers are macros of the board support package;
    their numeric values are not in this repository, so the table keeps them
    by name. *)
Inductive XBarOutput : Type :=
| XBARA1_OUT_FLEXPWM1_FAULT0
| XBARA1_OUT_FLEXPWM1_FAULT1
| XBARA1_OUT_FLEXPWM1_FAULT2
| XBARA1_OUT_FLEXPWM1_FAULT3
| XBARA1_OUT_FLEXPWM2_FAULT0
| XBARA1_OUT_FLEXPWM2_FAULT1
| XBARA1_OUT_FLEXPWM2_FAULT2
| XBARA1_OUT_FLEXPWM2_FAULT3
| XBARA1_OUT_FLEXPWM3_FAULT0
| XBARA1_OUT_FLEXPWM3_FAULT1
| XBARA1_OUT_FLEXPWM3_FAULT2
| XBARA1_OUT_FLEXPWM3_FAULT3
| XBARA1_OUT_FLEXPWM4_FAULT0
| XBARA1_OUT_FLEXPWM4_FAULT1
| XBARA1_OUT_FLEXPWM4_FAULT2
| XBARA1_OUT_FLEXPWM4_FAULT3.

(** ** The journal of external calls *)

(** One entry per call that leaves the Timer.  Calls to a submodule name it
    by its position [SmList[tm][i]]; calls that return a value record it. *)
Inductive Event : Type :=
| Stop (p : PWM_Type)
| Start (p : PWM_Type)
| SetPwmLdok (p : PWM_Type) (value : bool)
| SmBegin (tm i : nat) (doStart doSync : bool) (result : bool)
| SmEnable (tm i : nat) (value : bool)
| SmSetupLevel (tm i : nat) (level : pwm_level_select_t)
| SmSetupDeadtime (tm i : nat) (deadtimeValue : Z)
| SmSetupOutputEnable (tm i : nat) (activate : bool)
| SmSetupDutyCyclePercent (tm i : nat) (dutyCyclePercent : Z)
| SmSetupFaultState (tm i : nat) (faultState : pwm_fault_state_t)
| SmUpdateSetting (tm i : nat) (doSync : bool) (result : bool)
| XbarConnect (input : Z) (output : option XBarOutput)
| PWM_SetupFaults (p : PWM_Type) (faultNum : Z) (config : pwm_fault_param_t).

(** Modelled from the spec: the SubModule class is not in this file; the
    Timer uses it only through its methods.  The two methods that return a
    value are given as functions of everything that happened before the call
    and of the arguments passed, so a submodule may succeed or fail as it
    likes. *)
Record SubModule : Type := mkSubModule {
  sm_begin : list Event -> bool -> bool -> bool;
  sm_updateSetting : list Event -> bool -> bool
}.

(** ** The Timer object and the program state *)

Record Timer : Type := mkTimer {
  m_tmidx : nat;
  m_ptr : PWM_Type;
  m_isenabled : bool
}.

Record State : Type := mkState {
  this : Timer;
  SmList : list (list (option SubModule));
  journal : list Event
}.

(** [Timer::Timer (uint8_t index)] *)
Definition Timer_new (index : nat) : Timer :=
  {| m_tmidx := index; m_ptr := PWM index; m_isenabled := true |}.

Definition isEnabled (t : Timer) : bool := m_isenabled t.

(** [TimerFactory TMF[NofTimers]] *)
Definition TMF : list Timer :=
  [Timer_new Pwm1; Timer_new Pwm2; Timer_new Pwm3; Timer_new Pwm4].

(** ** A state monad for the methods *)

Definition M (A : Type) : Type := State -> A * State.

Definition ret {A : Type} (a : A) : M A := fun s => (a, s).

Definition bind {A B : Type} (m : M A) (k : A -> M B) : M B :=
  fun s => let (a, s') := m s in k a s'.

Notation "x <- m ;; k" := (bind m (fun x => k))
  (at level 61, m at next level, right associativity).
Notation "m ;; k" := (bind m (fun _ => k))
  (at level 61, right associativity).

Definition gets {A : Type} (f : State -> A) : M A := fun s => (f s, s).

Definition add_events (s : State) (evs : list Event) : State :=
  {| this := this s; SmList := SmList s; journal := journal s ++ evs |}.

Definition emit (e : Event) : M unit := fun s => (tt, add_events s [e]).

Definition when (c : bool) (m : M unit) : M unit :=
  if c then m else ret tt.

(** What a computation appended to the journal. *)
Definition emitted {A : Type} (m : M A) (s : State) : list Event :=
  skipn (length (journal s)) (journal (snd (m s))).

Definition result {A : Type} (m : M A) (s : State) : A := fst (m s).

(** A computation that leaves [this] and [SmList] alone and only appends to
    the journal. *)
Definition only_emits {A : Type} (m : M A) : Prop :=
  forall s, exists evs, snd (m s) = add_events s evs.

(** ** Register block primitives of the Timer

    Modelled from the spec: [ptr], [stop], [start] and [setPwmLdok] are
    inline members declared in the absent header; the spec lists them as
    primitives on the register block.  Each is one journal entry. *)
Definition ptr : M PWM_Type := gets (fun s => m_ptr (this s)).
Definition stop : M unit := p <- ptr ;; emit (Stop p).
Definition start : M unit := p <- ptr ;; emit (Start p).
Definition setPwmLdok (value : bool) : M unit :=
  p <- ptr ;; emit (SetPwmLdok p value).

(** [SmList[tm][i]]; a null pointer is [None]. *)
Definition slot (sml : list (list (option SubModule))) (tm i : nat)
  : option SubModule :=
  match nth_error sml tm with
  | Some row =>
      match nth_error row i with
      | Some s => s
      | None => None
      end
  | None => None
  end.

Definition tmidx : M nat := gets (fun s => m_tmidx (this s)).

Definition SmList_at (i : nat) : M (option SubModule) :=
  gets (fun s => slot (SmList s) (m_tmidx (this s)) i).

(** Calls into a submodule. *)
Definition call_begin (i : nat) (sm : SubModule) (doStart doSync : bool)
  : M bool :=
  fun s =>
    let r := sm_begin sm (journal s) doStart doSync in
    (r, add_events s [SmBegin (m_tmidx (this s)) i doStart doSync r]).

Definition call_updateSetting (i : nat) (sm : SubModule) (doSync : bool)
  : M bool :=
  fun s =>
    let r := sm_updateSetting sm (journal s) doSync in
    (r, add_events s [SmUpdateSetting (m_tmidx (this s)) i doSync r]).

Definition call_void (e : nat -> nat -> Event) (i : nat) : M unit :=
  tm <- tmidx ;; emit (e tm i).

(** ** Timer::begin *)

(** [for (uint8_t i = 0; (i < NofSubmodules) && success; i++)]: the slots
    still to visit are [slots]; the loop leaves as soon as [success] is
    false. *)
Fixpoint begin_loop (slots : list nat) (success : bool) : M bool :=
  match slots with
  | [] => ret success
  | i :: rest =>
      if success then
        s <- SmList_at i ;;
        success' <- match s with
                    | Some sm =>
                        r <- call_begin i sm false false ;;
                        ret (success && r)
                    | None => ret success
                    end ;;
        begin_loop rest success'
      else ret success
  end.

Definition begin (doStart doSync : bool) : M bool :=
  when doStart stop ;;
  when doSync (setPwmLdok false) ;;
  success <- begin_loop (seq 0 NofSubmodules) true ;;
  when doSync (setPwmLdok true) ;;
  when (doStart && success) start ;;
  ret success.

(** ** The broadcasts *)

(** [for (uint8_t i = 0; i < NofSubmodules; i++) { s = SmList[m_tmidx][i];
    if (s) body }] *)
Fixpoint for_each_submodule (slots : list nat) (body : nat -> M unit)
  : M unit :=
  match slots with
  | [] => ret tt
  | i :: rest =>
      s <- SmList_at i ;;
      match s with
      | Some _ => body i
      | None => ret tt
      end ;;
      for_each_submodule rest body
  end.

(** [m_isenabled = value;] *)
Definition with_isenabled (value : bool) (s : State) : State :=
  {| this := {| m_tmidx := m_tmidx (this s);
                m_ptr := m_ptr (this s);
                m_isenabled := value |};
     SmList := SmList s;
     journal := journal s |}.

Definition set_isenabled (value : bool) : M unit :=
  fun s => (tt, with_isenabled value s).

Definition enable (value : bool) : M unit :=
  for_each_submodule (seq 0 NofSubmodules)
    (call_void (fun tm i => SmEnable tm i value)) ;;
  set_isenabled value.

Definition setupLevel (level : pwm_level_select_t) : M unit :=
  for_each_submodule (seq 0 NofSubmodules)
    (call_void (fun tm i => SmSetupLevel tm i level)).

Definition setupDeadtime (deadtimeValue : Z) : M unit :=
  for_each_submodule (seq 0 NofSubmodules)
    (call_void (fun tm i => SmSetupDeadtime tm i deadtimeValue)).

Definition setupOutputEnable (activate : bool) : M unit :=
  for_each_submodule (seq 0 NofSubmodules)
    (call_void (fun tm i => SmSetupOutputEnable tm i activate)).

Definition setupDutyCyclePercent (dutyCyclePercent : Z) : M unit :=
  for_each_submodule (seq 0 NofSubmodules)
    (call_void (fun tm i => SmSetupDutyCyclePercent tm i dutyCyclePercent)).

Definition setupFaultState (faultState : pwm_fault_state_t) : M unit :=
  for_each_submodule (seq 0 NofSubmodules)
    (call_void (fun tm i => SmSetupFaultState tm i faultState)).

(** ** Timer::updateSetting *)

Fixpoint updateSetting_loop (slots : list nat) (doSync success : bool)
  : M bool :=
  match slots with
  | [] => ret success
  | i :: rest =>
      s <- SmList_at i ;;
      success' <- match s with
                  | Some sm =>
                      r <- call_updateSetting i sm doSync ;;
                      ret (success && r)
                  | None => ret success
                  end ;;
      updateSetting_loop rest doSync success'
  end.

Definition updateSetting (doSync : bool) : M bool :=
  updateSetting_loop (seq 0 NofSubmodules) doSync true.

(** ** Fault wiring *)

Definition XBarFaultOutput : list (list XBarOutput) :=
  [ [ XBARA1_OUT_FLEXPWM1_FAULT0;
      XBARA1_OUT_FLEXPWM1_FAULT1;
      XBARA1_OUT_FLEXPWM1_FAULT2;
      XBARA1_OUT_FLEXPWM1_FAULT3 ];
    [ XBARA1_OUT_FLEXPWM2_FAULT0;
      XBARA1_OUT_FLEXPWM2_FAULT1;
      XBARA1_OUT_FLEXPWM2_FAULT2;
      XBARA1_OUT_FLEXPWM2_FAULT3 ];
    [ XBARA1_OUT_FLEXPWM3_FAULT0;
      XBARA1_OUT_FLEXPWM3_FAULT1;
      XBARA1_OUT_FLEXPWM3_FAULT2;
      XBARA1_OUT_FLEXPWM3_FAULT3 ];
    [ XBARA1_OUT_FLEXPWM4_FAULT0;
      XBARA1_OUT_FLEXPWM4_FAULT1;
      XBARA1_OUT_FLEXPWM4_FAULT2;
      XBARA1_OUT_FLEXPWM4_FAULT3 ] ].

(** [XBarFaultOutput[tm][faultNum]].  The source reads the array without a
    bounds check; a read outside the row (or outside the table) has no
    entry to return and is [None] here. *)
Definition XBarFaultOutput_at (tm : nat) (faultNum : Z) : option XBarOutput :=
  match nth_error XBarFaultOutput tm with
  | Some row => if (faultNum <? 0)%Z then None
                else nth_error row (Z.to_nat faultNum)
  | None => None
  end.

(** [faultNum] is a [uint8_t] (0..255) and [faultPin] an [int]. *)
Definition setupFaults (faultNum : Z) (faultConfig : FaultConfig)
  (faultPin : Z) : M unit :=
  when (Z.land faultNum 3 =? 0)%Z
    (when (0 <? faultPin)%Z
       (tm <- tmidx ;;
        emit (XbarConnect faultPin (XBarFaultOutput_at tm faultNum))) ;;
     p <- ptr ;;
     emit (PWM_SetupFaults p faultNum (kPwmConfig faultConfig))).

(** ** Sequences of public calls *)

Inductive Call : Type :=
| Call_begin (doStart doSync : bool)
| Call_enable (value : bool)
| Call_setupLevel (level : pwm_level_select_t)
| Call_setupDeadtime (deadtimeValue : Z)
| Call_setupOutputEnable (activate : bool)
| Call_setupDutyCyclePercent (dutyCyclePercent : Z)
| Call_setupFaultState (faultState : pwm_fault_state_t)
| Call_updateSetting (doSync : bool)
| Call_setupFaults (faultNum : Z) (faultConfig : FaultConfig) (faultPin : Z).

Definition invoke (c : Call) : M unit :=
  match c with
  | Call_begin doStart doSync => _ <- begin doStart doSync ;; ret tt
  | Call_enable value => enable value
  | Call_setupLevel level => setupLevel level
  | Call_setupDeadtime v => setupDeadtime v
  | Call_setupOutputEnable a => setupOutputEnable a
  | Call_setupDutyCyclePercent d => setupDutyCyclePercent d
  | Call_setupFaultState f => setupFaultState f
  | Call_updateSetting doSync => _ <- updateSetting doSync ;; ret tt
  | Call_setupFaults n c p => setupFaults n c p
  end.

Fixpoint invoke_all (cs : list Call) : M unit :=
  match cs with
  | [] => ret tt
  | c :: rest => invoke c ;; invoke_all rest
  end.

(** The argument of the last [enable] among [cs], or [init] if there is
    none. *)
Fixpoint last_enable (cs : list Call) (init : bool) : bool :=
  match cs with
  | [] => init
  | Call_enable value :: rest => last_enable rest value
  | _ :: rest => last_enable rest init
  end.

(** ** Reading a journal *)

(** The value a journalled call returned; calls without a result count as
    successful. *)
Definition ev_ok (e : Event) : bool :=
  match e with
  | SmBegin _ _ _ _ r => r
  | SmUpdateSetting _ _ _ r => r
  | _ => true
  end.

Definition is_ldok (e : Event) : bool :=
  match e with
  | SetPwmLdok _ _ => true
  | _ => false
  end.

(** The load-ok window of block [p]: open after [setPwmLdok (false)], closed
    after [setPwmLdok (true)]. *)
Fixpoint window_open (p : PWM_Type) (open : bool) (evs : list Event) : bool :=
  match evs with
  | [] => open
  | SetPwmLdok (RegisterBlock q) value :: rest =>
      match p with
      | RegisterBlock p' =>
          if Nat.eqb p' q then window_open p (negb value) rest
          else window_open p open rest
      end
  | _ :: rest => window_open p open rest
  end.

(** Whether the counters of block [p] run after the journal [evs]. *)
Fixpoint counters_running (p : PWM_Type) (run : bool) (evs : list Event)
  : bool :=
  match evs with
  | [] => run
  | Stop (RegisterBlock q) :: rest =>
      match p with
      | RegisterBlock p' =>
          if Nat.eqb p' q then counters_running p false rest
          else counters_running p run rest
      end
  | Start (RegisterBlock q) :: rest =>
      match p with
      | RegisterBlock p' =>
          if Nat.eqb p' q then counters_running p true rest
          else counters_running p run rest
      end
  | _ :: rest => counters_running p run rest
  end.

(** The journal of the loop of [begin] over [slots], entered with [success]:
    absent slots leave no entry, a present slot is called with
    [(false, false)], and nothing follows a failed call. *)
Inductive BeginTrace (tm : nat) (row : nat -> option SubModule)
  : list nat -> bool -> list Event -> bool -> Prop :=
| bt_done : forall success, BeginTrace tm row [] success [] success
| bt_exit : forall i rest, BeginTrace tm row (i :: rest) false [] false
| bt_absent : forall i rest evs r,
    row i = None ->
    BeginTrace tm row rest true evs r ->
    BeginTrace tm row (i :: rest) true evs r
| bt_call : forall i rest sm b evs r,
    row i = Some sm ->
    BeginTrace tm row rest b evs r ->
    BeginTrace tm row (i :: rest) true (SmBegin tm i false false b :: evs) r.

(** The journal of the loop of [updateSetting]: every present slot is
    called, whatever the earlier calls returned. *)
Inductive UpdateTrace (tm : nat) (row : nat -> option SubModule)
  (doSync : bool) : list nat -> bool -> list Event -> bool -> Prop :=
| ut_done : forall success, UpdateTrace tm row doSync [] success [] success
| ut_absent : forall i rest success evs r,
    row i = None ->
    UpdateTrace tm row doSync rest success evs r ->
    UpdateTrace tm row doSync (i :: rest) success evs r
| ut_call : forall i rest sm success b evs r,
    row i = Some sm ->
    UpdateTrace tm row doSync rest (success && b) evs r ->
    UpdateTrace tm row doSync (i :: rest) success
      (SmUpdateSetting tm i doSync b :: evs) r.

(** The journal of one [begin]: the optional stop, the optional opening of
    the window, the submodule calls, the optional closing of the window and
    the optional start. *)
Definition begin_journal (p : PWM_Type) (doStart doSync : bool)
  (calls : list Event) (success : bool) : list Event :=
  (if doStart then [Stop p] else []) ++
  (if doSync then [SetPwmLdok p false] else []) ++
  calls ++
  (if doSync then [SetPwmLdok p true] else []) ++
  (if doStart && success then [Start p] else []).

(** ** The claims of the specification that the code does not meet, as the
    specification words them *)

(** Every present submodule of the Timer receives a [begin] call. *)
Definition begin_reaches_every_present (doStart doSync : bool) (s : State)
  : Prop :=
  forall i sm,
    i < NofSubmodules ->
    slot (SmList s) (m_tmidx (this s)) i = Some sm ->
    exists a b r,
      In (SmBegin (m_tmidx (this s)) i a b r) (emitted (begin doStart doSync) s).

(** The journal opens the load-ok window of [p] first and closes it last. *)
Definition window_around (p : PWM_Type) (evs : list Event) : Prop :=
  exists inner, evs = SetPwmLdok p false :: inner ++ [SetPwmLdok p true].

(** The routing request goes to an output recorded in the table. *)
Definition routed_to_table_entry (tm : nat) (faultNum faultPin : Z)
  (evs : list Event) : Prop :=
  exists out,
    XBarFaultOutput_at tm faultNum = Some out /\
    In (XbarConnect faultPin (Some out)) evs.

(** ** Occupied slots *)

(** [if (s)] on a row of the submodule table. *)
Definition occupied (row : nat -> option SubModule) (i : nat) : bool :=
  match row i with
  | Some _ => true
  | None => false
  end.

(** The slots of this Timer that hold a submodule, in slot order. *)
Definition present_slots (s : State) : list nat :=
  filter (occupied (slot (SmList s) (m_tmidx (this s))))
    (seq 0 NofSubmodules).

(** The slot a journalled submodule call went to. *)
Definition ev_slot (e : Event) : option nat :=
  match e with
  | SmBegin _ i _ _ _ => Some i
  | SmEnable _ i _ => Some i
  | SmSetupLevel _ i _ => Some i
  | SmSetupDeadtime _ i _ => Some i
  | SmSetupOutputEnable _ i _ => Some i
  | SmSetupDutyCyclePercent _ i _ => Some i
  | SmSetupFaultState _ i _ => Some i
  | SmUpdateSetting _ i _ _ => Some i
  | _ => None
  end.

Definition is_sm_begin (e : Event) : bool :=
  match e with
  | SmBegin _ _ _ _ _ => true
  | _ => false
  end.

(** What begin of the submodule in slot [i] answers to [(false, false)] on
    an empty history; an empty slot counts as success. *)
Definition begin_answer (s : State) (i : nat) : bool :=
  match slot (SmList s) (m_tmidx (this s)) i with
  | Some sm => sm_begin sm [] false false
  | None => true
  end.

(** A submodule whose answer to begin changes after its third earlier
    call in the journal. *)
Definition sm_tired : SubModule :=
  {| sm_begin := fun h _ _ => Nat.ltb (length h) 3;
     sm_updateSetting := fun _ _ => true |}.

(** ** Sample submodules and states *)

Definition sm_good : SubModule :=
  {| sm_begin := fun _ _ _ => true; sm_updateSetting := fun _ _ => true |}.

Definition sm_bad : SubModule :=
  {| sm_begin := fun _ _ _ => false; sm_updateSetting := fun _ _ => false |}.

Definition no_row : list (option SubModule) := [None; None; None; None].

Definition sample_fault : FaultConfig := mkFaultConfig 9%Z.

(** Timer unit 2 with slots [null, A, null, B]. *)
Definition state_gaps (a b : SubModule) : State :=
  {| this := Timer_new Pwm3;
     SmList := [no_row; no_row; [None; Some a; None; Some b]; no_row];
     journal := [] |}.

(** Timer unit 1 over a table whose rows are all empty. *)
Definition state_bare : State :=
  {| this := Timer_new Pwm2; SmList := [no_row; no_row]; journal := [] |}.

(** Timer unit 2 with slots [A, B, C, null]. *)
Definition state_of (a b c : SubModule) : State :=
  {| this := Timer_new Pwm3;
     SmList := [no_row; no_row; [Some a; Some b; Some c; None]; no_row];
     journal := [] |}.

(** ** How the journal grows *)

Lemma add_events_nil (s : State) : add_events s [] = s.
Proof.
  destruct s as [t l j]; unfold add_events; simpl.
  now rewrite app_nil_r.
Qed.

Lemma add_events_app (s : State) (a b : list Event) :
  add_events (add_events s a) b = add_events s (a ++ b).
Proof.
  unfold add_events; simpl. now rewrite app_assoc.
Qed.

Lemma skipn_length_app {A : Type} (l r : list A) :
  skipn (length l) (l ++ r) = r.
Proof.
  induction l as [|x l IH]; simpl; auto.
Qed.

Lemma emitted_of_add_events {A : Type} (m : M A) (s : State)
  (evs : list Event) :
  snd (m s) = add_events s evs -> emitted m s = evs.
Proof.
  intros H. unfold emitted. rewrite H. simpl. apply skipn_length_app.
Qed.

Lemma only_emits_ret {A : Type} (a : A) : only_emits (ret a).
Proof.
  intros s. exists []. simpl. now rewrite add_events_nil.
Qed.

Lemma only_emits_gets {A : Type} (f : State -> A) : only_emits (gets f).
Proof.
  intros s. exists []. simpl. now rewrite add_events_nil.
Qed.

Lemma only_emits_emit (e : Event) : only_emits (emit e).
Proof.
  intros s. now exists [e].
Qed.

Lemma only_emits_bind {A B : Type} (m : M A) (k : A -> M B) :
  only_emits m -> (forall a, only_emits (k a)) -> only_emits (bind m k).
Proof.
  intros Hm Hk s. unfold bind.
  destruct (Hm s) as [e1 H1].
  destruct (m s) as [a s1] eqn:E. simpl in H1. subst s1.
  destruct (Hk a (add_events s e1)) as [e2 H2].
  exists (e1 ++ e2). now rewrite H2, add_events_app.
Qed.

Lemma only_emits_when (c : bool) (m : M unit) :
  only_emits m -> only_emits (when c m).
Proof.
  intros H. destruct c; simpl; auto using only_emits_ret.
Qed.

Create HintDb emits.
#[local] Hint Resolve only_emits_ret only_emits_gets only_emits_emit
  only_emits_bind only_emits_when : emits.

Lemma only_emits_call_begin i sm a b : only_emits (call_begin i sm a b).
Proof.
  intros s. unfold call_begin. simpl. eauto.
Qed.

Lemma only_emits_call_updateSetting i sm b :
  only_emits (call_updateSetting i sm b).
Proof.
  intros s. unfold call_updateSetting. simpl. eauto.
Qed.

Lemma only_emits_call_void e i : only_emits (call_void e i).
Proof.
  unfold call_void, tmidx. auto with emits.
Qed.

#[local] Hint Resolve only_emits_call_begin only_emits_call_updateSetting
  only_emits_call_void : emits.

Lemma only_emits_for_each slots body :
  (forall i, only_emits (body i)) ->
  only_emits (for_each_submodule slots body).
Proof.
  intros Hb. induction slots as [|i rest IH]; simpl.
  - auto with emits.
  - apply only_emits_bind.
    + unfold SmList_at. auto with emits.
    + intros [sm|]; auto with emits.
Qed.

(** ** The loop of begin *)

Lemma begin_loop_false (slots : list nat) (s : State) :
  begin_loop slots false s = (false, s).
Proof.
  destruct slots; reflexivity.
Qed.

Lemma begin_loop_absent (i : nat) (rest : list nat) (s : State) :
  slot (SmList s) (m_tmidx (this s)) i = None ->
  begin_loop (i :: rest) true s = begin_loop rest true s.
Proof.
  intros H. simpl. unfold bind, SmList_at, gets, ret. now rewrite H.
Qed.

Lemma begin_loop_present (i : nat) (rest : list nat) (s : State)
  (sm : SubModule) :
  slot (SmList s) (m_tmidx (this s)) i = Some sm ->
  begin_loop (i :: rest) true s =
  begin_loop rest (sm_begin sm (journal s) false false)
    (add_events s [SmBegin (m_tmidx (this s)) i false false
                     (sm_begin sm (journal s) false false)]).
Proof.
  intros H. simpl. unfold bind, SmList_at, gets, ret, call_begin.
  now rewrite H.
Qed.

Lemma begin_loop_trace (slots : list nat) :
  forall (success : bool) (s : State),
  exists evs,
    snd (begin_loop slots success s) = add_events s evs /\
    BeginTrace (m_tmidx (this s)) (slot (SmList s) (m_tmidx (this s)))
      slots success evs (fst (begin_loop slots success s)).
Proof.
  induction slots as [|i rest IH]; intros success s.
  - exists []. simpl. rewrite add_events_nil.
    split; [reflexivity | constructor].
  - destruct success.
    + destruct (slot (SmList s) (m_tmidx (this s)) i) as [sm|] eqn:Hs.
      * rewrite (begin_loop_present _ _ _ _ Hs).
        set (b := sm_begin sm (journal s) false false).
        destruct (IH b (add_events s
                    [SmBegin (m_tmidx (this s)) i false false b]))
          as [evs [H1 H2]].
        exists (SmBegin (m_tmidx (this s)) i false false b :: evs).
        split.
        -- rewrite H1. now rewrite add_events_app.
        -- eapply bt_call; eauto.
      * rewrite (begin_loop_absent _ _ _ Hs).
        destruct (IH true s) as [evs [H1 H2]].
        exists evs. split; [exact H1 | now apply bt_absent].
    + rewrite begin_loop_false. exists []. simpl. rewrite add_events_nil.
      split; [reflexivity | constructor].
Qed.

Lemma begin_unfold (doStart doSync : bool) (s : State) :
  begin doStart doSync s =
  let p := m_ptr (this s) in
  let s1 := add_events s ((if doStart then [Stop p] else []) ++
                          (if doSync then [SetPwmLdok p false] else [])) in
  let rs := begin_loop (seq 0 NofSubmodules) true s1 in
  let q := m_ptr (this (snd rs)) in
  (fst rs,
   add_events (snd rs)
     ((if doSync then [SetPwmLdok q true] else []) ++
      (if doStart && fst rs then [Start q] else []))).
Proof.
  unfold begin.
  set (L := begin_loop (seq 0 NofSubmodules) true).
  destruct doStart, doSync;
    unfold when, stop, start, setPwmLdok, ptr, bind, gets, emit, ret;
    cbn [andb app fst snd this m_ptr add_events];
    rewrite ?add_events_app, ?add_events_nil; cbn [app];
    destruct (L _) as [r s2]; cbn [fst snd];
    try destruct r; cbn [this m_ptr add_events];
    rewrite ?add_events_app, ?add_events_nil; cbn [app];
    reflexivity.
Qed.

(** The whole journal of one [begin]. *)
Lemma begin_trace (doStart doSync : bool) (s : State) :
  exists calls,
    snd (begin doStart doSync s) =
      add_events s (begin_journal (m_ptr (this s)) doStart doSync calls
                      (result (begin doStart doSync) s)) /\
    BeginTrace (m_tmidx (this s)) (slot (SmList s) (m_tmidx (this s)))
      (seq 0 NofSubmodules) true calls (result (begin doStart doSync) s).
Proof.
  unfold result. rewrite begin_unfold. cbv zeta.
  set (p := m_ptr (this s)).
  set (s1 := add_events s _).
  destruct (begin_loop_trace (seq 0 NofSubmodules) true s1) as [calls [H1 H2]].
  exists calls. cbn [fst snd]. rewrite H1. split.
  - unfold s1. cbn [this m_ptr add_events].
    rewrite !add_events_app. unfold begin_journal. fold p.
    now rewrite <- !app_assoc.
  - exact H2.
Qed.

Lemma begin_emitted (doStart doSync : bool) (s : State) :
  exists calls,
    emitted (begin doStart doSync) s =
      begin_journal (m_ptr (this s)) doStart doSync calls
        (result (begin doStart doSync) s) /\
    BeginTrace (m_tmidx (this s)) (slot (SmList s) (m_tmidx (this s)))
      (seq 0 NofSubmodules) true calls (result (begin doStart doSync) s).
Proof.
  destruct (begin_trace doStart doSync s) as [calls [H1 H2]].
  exists calls. split; [now apply emitted_of_add_events | exact H2].
Qed.

(** ** What a loop journal of begin looks like *)

Lemma bt_false tm row slots evs r :
  BeginTrace tm row slots false evs r -> evs = [] /\ r = false.
Proof.
  intros H. inversion H; subst; auto.
Qed.

Lemma bt_entries tm row slots success evs r :
  BeginTrace tm row slots success evs r ->
  forall e, In e evs ->
    exists i b, e = SmBegin tm i false false b /\ In i slots /\ row i <> None.
Proof.
  induction 1 as [ | | i rest evs r Hrow _ IH | i rest sm b evs r Hrow _ IH];
    intros e He.
  - destruct He.
  - destruct He.
  - destruct (IH e He) as [j [b [-> [Hj Hp]]]].
    exists j, b. simpl. auto.
  - destruct He as [<- | He].
    + exists i, b. simpl. split; [reflexivity | split; [auto | congruence]].
    + destruct (IH e He) as [j [b' [-> [Hj Hp]]]].
      exists j, b'. simpl. auto.
Qed.

Lemma bt_result tm row slots success evs r :
  BeginTrace tm row slots success evs r ->
  r = success && forallb ev_ok evs.
Proof.
  induction 1 as [ [|] | | i rest evs r Hrow _ IH | i rest sm b evs r Hrow _ IH];
    simpl; auto.
Qed.

(** On success every present slot was called. *)
Lemma bt_complete tm row slots success evs r :
  BeginTrace tm row slots success evs r ->
  r = true ->
  forall i, In i slots -> row i <> None ->
    In (SmBegin tm i false false true) evs.
Proof.
  induction 1 as [ | | i rest evs r Hrow H IH | i rest sm b evs r Hrow H IH];
    intros Hr j Hj Hp.
  - destruct Hj.
  - discriminate.
  - destruct Hj as [<- | Hj]; [congruence | auto].
  - destruct b.
    + destruct Hj as [<- | Hj]; [now left | right; auto].
    + apply bt_false in H. destruct H; congruence.
Qed.

(** A failed call is the last one, every present slot before it was called
    and succeeded, and no slot after it was called. *)
Lemma bt_fail_fast tm row (n : nat) :
  forall a evs r i x y,
  BeginTrace tm row (seq a n) true evs r ->
  In (SmBegin tm i x y false) evs ->
  r = false /\
  (forall j x' y' b, In (SmBegin tm j x' y' b) evs -> j <= i) /\
  (forall j, a <= j < i -> row j <> None ->
     In (SmBegin tm j false false true) evs).
Proof.
  induction n as [|n IH]; intros a evs r i x y H Hin; simpl in H.
  - inversion H; subst. destruct Hin.
  - inversion H as [ | | i' rest' evs' r' Hrow H' | i' rest' sm b evs' r' Hrow H'];
      subst.
    + destruct (IH _ _ _ _ _ _ H' Hin) as [Hr [Hle Hbefore]].
      split; [exact Hr | split; [exact Hle |]].
      intros j [Ha Hi] Hp.
      destruct (Nat.eq_dec j a) as [-> | Hne]; [congruence |].
      apply Hbefore; [lia | exact Hp].
    + destruct Hin as [Heq | Hin].
      * inversion Heq; subst.
        apply bt_false in H'. destruct H' as [-> ->].
        split; [reflexivity | split].
        -- intros j x' y' b [Hj | []]. inversion Hj; subst. lia.
        -- intros j Hj. lia.
      * destruct b; [| apply bt_false in H'; destruct H' as [-> _]; destruct Hin].
        destruct (IH _ _ _ _ _ _ H' Hin) as [Hr [Hle Hbefore]].
        assert (Hai : S a <= i).
        { destruct (bt_entries _ _ _ _ _ _ H' _ Hin) as [j [b [Hj [Hs _]]]].
          inversion Hj; subst. apply in_seq in Hs. lia. }
        split; [exact Hr | split].
        -- intros j x' y' b [Hj | Hj].
           ++ inversion Hj; subst. lia.
           ++ eapply Hle; eauto.
        -- intros j [Ha Hi] Hp.
           destruct (Nat.eq_dec j a) as [-> | Hne]; [now left |].
           right. apply Hbefore; [lia | exact Hp].
Qed.

Lemma bt_shape tm row (slots : list nat) :
  forall evs r,
  BeginTrace tm row slots true evs r ->
  (r = true /\
   evs = map (fun i => SmBegin tm i false false true)
           (filter (occupied row) slots)) \/
  (r = false /\
   exists pre i post,
     filter (occupied row) slots = pre ++ i :: post /\
     evs = map (fun i => SmBegin tm i false false true) pre ++
           [SmBegin tm i false false false]).
Proof.
  induction slots as [|a rest IH]; intros evs r H.
  - inversion H; subst. left. split; reflexivity.
  - inversion H as [ | | i' rest' evs' r' Hrow H'
                     | i' rest' sm b evs' r' Hrow H']; subst;
      assert (Ho : occupied row a = match row a with
                                    | Some _ => true
                                    | None => false
                                    end) by reflexivity;
      rewrite Hrow in Ho; cbn [filter]; rewrite Ho.
    + apply IH. exact H'.
    + destruct b.
      * destruct (IH _ _ H') as [[-> ->] | [-> [pre [i [post [E ->]]]]]].
        -- left. split; reflexivity.
        -- right. split; [reflexivity |].
           exists (a :: pre), i, post. rewrite E. split; reflexivity.
      * apply bt_false in H'. destruct H' as [-> ->].
        right. split; [reflexivity |].
        exists [], a, (filter (occupied row) rest). split; reflexivity.
Qed.

(** An empty slot does not end the loop: a present slot is called unless a
    call to an earlier slot has failed. *)
Lemma bt_reach tm row (n : nat) :
  forall a evs r i,
  BeginTrace tm row (seq a n) true evs r ->
  a <= i < a + n ->
  row i <> None ->
  (forall j b, j < i -> In (SmBegin tm j false false b) evs -> b = true) ->
  exists b, In (SmBegin tm i false false b) evs.
Proof.
  induction n as [|n IH]; intros a evs r i H Hi Hp Hok; [lia |].
  simpl in H.
  inversion H as [ | | i' rest' evs' r' Hrow H'
                   | i' rest' sm b evs' r' Hrow H']; subst.
  - destruct (Nat.eq_dec i a) as [-> | Hne]; [congruence |].
    apply (IH (S a) evs r i H'); [lia | exact Hp | exact Hok].
  - destruct (Nat.eq_dec i a) as [-> | Hne].
    + exists b. now left.
    + assert (Hb : b = true) by (apply (Hok a); [lia | now left]).
      subst b.
      destruct (IH (S a) evs' r i H') as [b' Hb']; [lia | exact Hp | |].
      * intros j b Hj Hin. apply (Hok j b Hj). now right.
      * exists b'. now right.
Qed.

Lemma filter_sm_begin_journal p doStart doSync calls r :
  (forall e, In e calls -> is_sm_begin e = true) ->
  filter is_sm_begin (begin_journal p doStart doSync calls r) = calls.
Proof.
  intros H. unfold begin_journal. rewrite !filter_app.
  assert (Hc : filter is_sm_begin calls = calls).
  { clear - H. induction calls as [|e l IH]; [reflexivity |].
    simpl. rewrite (H e) by now left.
    f_equal. apply IH. intros x Hx. apply H. now right. }
  rewrite Hc.
  destruct doStart, doSync, r; simpl; now rewrite ?app_nil_r.
Qed.

Lemma map_ev_slot_begin tm (b : bool) (l : list nat) :
  map ev_slot (map (fun i => SmBegin tm i false false b) l) = map Some l.
Proof.
  rewrite map_map. reflexivity.
Qed.

(** ** The loop of updateSetting *)

Lemma updateSetting_loop_absent i rest doSync success s :
  slot (SmList s) (m_tmidx (this s)) i = None ->
  updateSetting_loop (i :: rest) doSync success s =
  updateSetting_loop rest doSync success s.
Proof.
  intros H. simpl. unfold bind, SmList_at, gets, ret. now rewrite H.
Qed.

Lemma updateSetting_loop_present i rest doSync success s sm :
  slot (SmList s) (m_tmidx (this s)) i = Some sm ->
  updateSetting_loop (i :: rest) doSync success s =
  updateSetting_loop rest doSync
    (success && sm_updateSetting sm (journal s) doSync)
    (add_events s [SmUpdateSetting (m_tmidx (this s)) i doSync
                     (sm_updateSetting sm (journal s) doSync)]).
Proof.
  intros H. simpl. unfold bind, SmList_at, gets, ret, call_updateSetting.
  now rewrite H.
Qed.

Lemma updateSetting_loop_trace (slots : list nat) (doSync : bool) :
  forall (success : bool) (s : State),
  exists evs,
    snd (updateSetting_loop slots doSync success s) = add_events s evs /\
    UpdateTrace (m_tmidx (this s)) (slot (SmList s) (m_tmidx (this s)))
      doSync slots success evs
      (fst (updateSetting_loop slots doSync success s)).
Proof.
  induction slots as [|i rest IH]; intros success s.
  - exists []. simpl. rewrite add_events_nil.
    split; [reflexivity | constructor].
  - destruct (slot (SmList s) (m_tmidx (this s)) i) as [sm|] eqn:Hs.
    + rewrite (updateSetting_loop_present _ _ _ _ _ _ Hs).
      set (b := sm_updateSetting sm (journal s) doSync).
      destruct (IH (success && b)
                  (add_events s
                     [SmUpdateSetting (m_tmidx (this s)) i doSync b]))
        as [evs [H1 H2]].
      exists (SmUpdateSetting (m_tmidx (this s)) i doSync b :: evs).
      split.
      * rewrite H1. now rewrite add_events_app.
      * eapply ut_call; eauto.
    + rewrite (updateSetting_loop_absent _ _ _ _ _ Hs).
      destruct (IH success s) as [evs [H1 H2]].
      exists evs. split; [exact H1 | now apply ut_absent].
Qed.

Lemma updateSetting_emitted (doSync : bool) (s : State) :
  exists evs,
    emitted (updateSetting doSync) s = evs /\
    snd (updateSetting doSync s) = add_events s evs /\
    UpdateTrace (m_tmidx (this s)) (slot (SmList s) (m_tmidx (this s)))
      doSync (seq 0 NofSubmodules) true evs
      (result (updateSetting doSync) s).
Proof.
  unfold updateSetting, result.
  destruct (updateSetting_loop_trace (seq 0 NofSubmodules) doSync true s)
    as [evs [H1 H2]].
  exists evs. split; [now apply emitted_of_add_events | auto].
Qed.

Lemma ut_entries tm row doSync slots success evs r :
  UpdateTrace tm row doSync slots success evs r ->
  forall e, In e evs ->
    exists i b,
      e = SmUpdateSetting tm i doSync b /\ In i slots /\ row i <> None.
Proof.
  induction 1 as [ | i rest success evs r Hrow _ IH
                   | i rest sm success b evs r Hrow _ IH]; intros e He.
  - destruct He.
  - destruct (IH e He) as [j [b [-> [Hj Hp]]]].
    exists j, b. simpl. auto.
  - destruct He as [<- | He].
    + exists i, b. simpl. split; [reflexivity | split; [auto | congruence]].
    + destruct (IH e He) as [j [b' [-> [Hj Hp]]]].
      exists j, b'. simpl. auto.
Qed.

Lemma ut_complete tm row doSync slots success evs r :
  UpdateTrace tm row doSync slots success evs r ->
  forall i, In i slots -> row i <> None ->
    exists b, In (SmUpdateSetting tm i doSync b) evs.
Proof.
  induction 1 as [ | i rest success evs r Hrow _ IH
                   | i rest sm success b evs r Hrow _ IH]; intros j Hj Hp.
  - destruct Hj.
  - destruct Hj as [<- | Hj]; [congruence | auto].
  - destruct Hj as [<- | Hj].
    + exists b. now left.
    + destruct (IH j Hj Hp) as [b' Hb']. exists b'. now right.
Qed.

Lemma ut_result tm row doSync slots success evs r :
  UpdateTrace tm row doSync slots success evs r ->
  r = success && forallb ev_ok evs.
Proof.
  induction 1 as [ success | i rest success evs r Hrow _ IH
                   | i rest sm success b evs r Hrow _ IH]; simpl.
  - now rewrite andb_true_r.
  - exact IH.
  - rewrite IH. now rewrite andb_assoc.
Qed.

Lemma ut_slots tm row doSync slots success evs r :
  UpdateTrace tm row doSync slots success evs r ->
  map ev_slot evs = map Some (filter (occupied row) slots).
Proof.
  induction 1 as [ | i rest success evs r Hrow _ IH
                   | i rest sm success b evs r Hrow _ IH].
  - reflexivity.
  - cbn [filter]. unfold occupied at 1. now rewrite Hrow.
  - cbn [filter]. unfold occupied at 1. rewrite Hrow.
    cbn [map ev_slot]. now rewrite IH.
Qed.

(** ** Journals without window or counter entries *)

Lemma in_begin_journal_sm p doStart doSync calls r tm i x y b :
  In (SmBegin tm i x y b) (begin_journal p doStart doSync calls r) <->
  In (SmBegin tm i x y b) calls.
Proof.
  unfold begin_journal. rewrite !in_app_iff.
  destruct doStart, doSync, r; simpl; intuition discriminate.
Qed.

Lemma window_open_app p open l1 l2 :
  window_open p open (l1 ++ l2) = window_open p (window_open p open l1) l2.
Proof.
  revert open.
  induction l1 as [|e l1 IH]; intros open; simpl; auto.
  destruct e; auto.
  destruct p0 as [q], p as [p']. destruct (Nat.eqb p' q); auto.
Qed.

Lemma window_open_quiet p open l :
  (forall e, In e l -> is_ldok e = false) -> window_open p open l = open.
Proof.
  induction l as [|e l IH]; intros H; simpl; auto.
  assert (He : is_ldok e = false) by (apply H; now left).
  destruct e; try discriminate; apply IH; intros e' He'; apply H; now right.
Qed.

Lemma window_open_set p open value :
  window_open p open [SetPwmLdok p value] = negb value.
Proof.
  destruct p as [n]. simpl. now rewrite Nat.eqb_refl.
Qed.

Lemma counters_running_app p run l1 l2 :
  counters_running p run (l1 ++ l2) =
  counters_running p (counters_running p run l1) l2.
Proof.
  revert run.
  induction l1 as [|e l1 IH]; intros run; simpl; auto.
  destruct e; auto;
    destruct p0 as [q], p as [p']; destruct (Nat.eqb p' q); auto.
Qed.

Lemma counters_running_quiet p run l :
  (forall e, In e l -> e <> Stop p /\ e <> Start p) ->
  counters_running p run l = run.
Proof.
  induction l as [|e l IH]; intros H; simpl; auto.
  assert (IH' : counters_running p run l = run)
    by (apply IH; intros e' He'; apply H; now right).
  destruct (H e (or_introl eq_refl)) as [H1 H2].
  destruct e; auto; destruct p0 as [q], p as [p'];
    destruct (Nat.eqb p' q) eqn:E; auto;
    apply Nat.eqb_eq in E; subst; congruence.
Qed.

(** ** Two runs on Timer unit 2 with slots [A, B, C, null] *)

Example begin_all_succeed :
  begin true true (state_of sm_good sm_good sm_good) =
  (true,
   add_events (state_of sm_good sm_good sm_good)
     [Stop (RegisterBlock 2);
      SetPwmLdok (RegisterBlock 2) false;
      SmBegin 2 0 false false true;
      SmBegin 2 1 false false true;
      SmBegin 2 2 false false true;
      SetPwmLdok (RegisterBlock 2) true;
      Start (RegisterBlock 2)]).
Proof. reflexivity. Qed.

Example begin_B_fails :
  begin true true (state_of sm_good sm_bad sm_good) =
  (false,
   add_events (state_of sm_good sm_bad sm_good)
     [Stop (RegisterBlock 2);
      SetPwmLdok (RegisterBlock 2) false;
      SmBegin 2 0 false false true;
      SmBegin 2 1 false false false;
      SetPwmLdok (RegisterBlock 2) true]).
Proof. reflexivity. Qed.

Example updateSetting_B_fails :
  updateSetting true (state_of sm_good sm_bad sm_good) =
  (false,
   add_events (state_of sm_good sm_bad sm_good)
     [SmUpdateSetting 2 0 true true;
      SmUpdateSetting 2 1 true false;
      SmUpdateSetting 2 2 true true]).
Proof. reflexivity. Qed.

Example enable_false_then_flag :
  m_isenabled (this (snd (enable false (state_of sm_good sm_good sm_good))))
    = false /\
  emitted (enable false) (state_of sm_good sm_good sm_good) =
    [SmEnable 2 0 false; SmEnable 2 1 false; SmEnable 2 2 false].
Proof. split; reflexivity. Qed.

(** ** Timer::begin: the fan-out *)

(** C1, as the specification states it, fails: on Timer unit 2 with slots
    [A, B, C, null] where A fails, A's begin is journalled with result
    false and the call returns false, but B and C, both present, are never
    called. *)
Lemma begin_fan_out_counterexample :
  In (SmBegin 2 0 false false false)
     (emitted (begin true true) (state_of sm_bad sm_good sm_good)) /\
  result (begin true true) (state_of sm_bad sm_good sm_good) = false /\
  ~ begin_reaches_every_present true true (state_of sm_bad sm_good sm_good).
Proof.
  split; [vm_compute; auto | split; [reflexivity |]].
  intros H.
  destruct (H 1 sm_good) as [a [b [r Hin]]].
  - unfold NofSubmodules. lia.
  - reflexivity.
  - vm_compute in Hin.
    repeat (destruct Hin as [Hin | Hin]; [discriminate |]).
    exact Hin.
Qed.

(** C1 (amended): when a submodule's begin returns failure during
    Timer::begin, the aggregate result is false, the failed call is the
    last submodule call of this begin (no later slot is called), and every
    present submodule in an earlier slot has received its begin call, with
    arguments (false, false), and succeeded. *)
Theorem begin_stops_at_first_failure (doStart doSync : bool) (s : State)
  (i : nat) (x y : bool) :
  In (SmBegin (m_tmidx (this s)) i x y false)
     (emitted (begin doStart doSync) s) ->
  result (begin doStart doSync) s = false /\
  (forall j x' y' b,
     In (SmBegin (m_tmidx (this s)) j x' y' b)
        (emitted (begin doStart doSync) s) -> j <= i) /\
  (forall j, j < i -> slot (SmList s) (m_tmidx (this s)) j <> None ->
     In (SmBegin (m_tmidx (this s)) j false false true)
        (emitted (begin doStart doSync) s)).
Proof.
  destruct (begin_emitted doStart doSync s) as [calls [-> HT]].
  intros Hin. apply in_begin_journal_sm in Hin.
  destruct (bt_fail_fast _ _ _ _ _ _ _ _ _ HT Hin) as [Hr [Hle Hbefore]].
  split; [exact Hr | split].
  - intros j x' y' b Hj. apply in_begin_journal_sm in Hj. eauto.
  - intros j Hj Hp. apply in_begin_journal_sm. apply Hbefore; [lia | exact Hp].
Qed.

Lemma begin_stops_at_first_failure_witness :
  result (begin true true) (state_of sm_good sm_bad sm_good) = false /\
  (forall j x' y' b,
     In (SmBegin 2 j x' y' b)
        (emitted (begin true true) (state_of sm_good sm_bad sm_good)) ->
     j <= 1) /\
  (forall j, j < 1 ->
     slot (SmList (state_of sm_good sm_bad sm_good)) 2 j <> None ->
     In (SmBegin 2 j false false true)
        (emitted (begin true true) (state_of sm_good sm_bad sm_good))).
Proof.
  apply (begin_stops_at_first_failure true true
           (state_of sm_good sm_bad sm_good) 1 false false).
  vm_compute. auto.
Defined.

(** C7: every submodule begin that Timer::begin journals is addressed to a
    present slot of this Timer and carries the arguments (false, false).  An
    absent slot is skipped: it is never called, it does not end the loop (a
    present slot is called unless a call to an earlier slot has failed, so
    the calls go to an initial run of the present slots, in slot order),
    and it is no error (the result is the conjunction of the values the
    invoked submodules returned). *)
Theorem begin_submodule_arguments (doStart doSync : bool) (s : State) :
  (forall tm i x y b,
     In (SmBegin tm i x y b) (emitted (begin doStart doSync) s) ->
     tm = m_tmidx (this s) /\ x = false /\ y = false /\
     i < NofSubmodules /\ slot (SmList s) (m_tmidx (this s)) i <> None) /\
  (forall i x y b,
     slot (SmList s) (m_tmidx (this s)) i = None ->
     ~ In (SmBegin (m_tmidx (this s)) i x y b)
          (emitted (begin doStart doSync) s)) /\
  (forall i,
     i < NofSubmodules ->
     slot (SmList s) (m_tmidx (this s)) i <> None ->
     (forall j b,
        j < i ->
        In (SmBegin (m_tmidx (this s)) j false false b)
           (emitted (begin doStart doSync) s) ->
        b = true) ->
     exists b,
       In (SmBegin (m_tmidx (this s)) i false false b)
          (emitted (begin doStart doSync) s)) /\
  (exists k,
     map ev_slot (filter is_sm_begin (emitted (begin doStart doSync) s)) =
     map Some (firstn k (present_slots s))) /\
  result (begin doStart doSync) s =
    forallb ev_ok (emitted (begin doStart doSync) s).
Proof.
  destruct (begin_emitted doStart doSync s) as [calls [-> HT]].
  assert (Hent : forall tm i x y b,
     In (SmBegin tm i x y b)
        (begin_journal (m_ptr (this s)) doStart doSync calls
           (result (begin doStart doSync) s)) ->
     tm = m_tmidx (this s) /\ x = false /\ y = false /\
     i < NofSubmodules /\ slot (SmList s) (m_tmidx (this s)) i <> None).
  { intros tm i x y b Hin. apply in_begin_journal_sm in Hin.
    destruct (bt_entries _ _ _ _ _ _ HT _ Hin) as [j [b' [E [Hj Hp]]]].
    inversion E; subst. apply in_seq in Hj.
    repeat split; auto. lia. }
  assert (Hcalls : forall e, In e calls -> is_sm_begin e = true).
  { intros e He.
    destruct (bt_entries _ _ _ _ _ _ HT _ He) as [i [b [-> _]]].
    reflexivity. }
  split; [exact Hent | split; [| split; [| split]]].
  - intros i x y b Hnone Hin.
    apply Hent in Hin. destruct Hin as (_ & _ & _ & _ & Hp). auto.
  - intros i Hi Hp Hok.
    destruct (bt_reach _ _ _ _ _ _ i HT) as [b Hb];
      [unfold NofSubmodules in *; lia | exact Hp | |].
    + intros j b Hj Hin. apply (Hok j b Hj). now apply in_begin_journal_sm.
    + exists b. now apply in_begin_journal_sm.
  - rewrite (filter_sm_begin_journal _ _ _ _ _ Hcalls).
    destruct (bt_shape _ _ _ _ _ HT)
      as [[_ ->] | [_ [pre [i [post [E ->]]]]]].
    + exists (length (present_slots s)).
      rewrite firstn_all. apply map_ev_slot_begin.
    + exists (length (pre ++ [i]) + 0).
      unfold present_slots. rewrite E.
      replace (pre ++ i :: post) with ((pre ++ [i]) ++ post)
        by (now rewrite <- app_assoc).
      rewrite firstn_app_2. cbn [firstn]. rewrite app_nil_r.
      rewrite map_app, map_ev_slot_begin, map_app. reflexivity.
  - rewrite (bt_result _ _ _ _ _ _ HT) at 1.
    unfold begin_journal. rewrite !forallb_app.
    destruct doStart, doSync, (result (begin _ _) s); simpl;
      now rewrite ?andb_true_r.
Qed.

(** Slots [null, A, null, B] with B failing: the empty slots 0 and 2 are
    passed over, A and B are both called, and the call fails. *)
Example begin_passes_over_gaps :
  begin true false (state_gaps sm_good sm_bad) =
  (false,
   add_events (state_gaps sm_good sm_bad)
     [Stop (RegisterBlock 2);
      SmBegin 2 1 false false true;
      SmBegin 2 3 false false false]).
Proof. reflexivity. Qed.

(** ** Timer::begin: stop, window and start *)

(** C3: begin (true, doSync) journals the stop of the register block before
    anything else; the start appears exactly when the call succeeds, which
    is exactly when every submodule begin it invoked returned true; so after
    the call the counters run if and only if it succeeded, and a failed call
    leaves them stopped. *)
Theorem begin_stop_then_start_on_success (doSync : bool) (s : State)
  (run : bool) :
  exists rest,
    emitted (begin true doSync) s = Stop (m_ptr (this s)) :: rest /\
    (In (Start (m_ptr (this s))) rest <->
     result (begin true doSync) s = true) /\
    (result (begin true doSync) s = true <->
     forall tm i x y b, In (SmBegin tm i x y b) rest -> b = true) /\
    counters_running (m_ptr (this s)) run (emitted (begin true doSync) s) =
      result (begin true doSync) s.
Proof.
  destruct (begin_emitted true doSync s) as [calls [E HT]].
  set (p := m_ptr (this s)) in *.
  set (r := result (begin true doSync) s) in *.
  assert (Hcalls : forall e, In e calls ->
            exists i b, e = SmBegin (m_tmidx (this s)) i false false b)
    by (intros e He; destruct (bt_entries _ _ _ _ _ _ HT _ He)
          as [i [b [-> _]]]; eauto).
  assert (Hr : r = forallb ev_ok calls)
    by (now rewrite (bt_result _ _ _ _ _ _ HT)).
  exists ((if doSync then [SetPwmLdok p false] else []) ++ calls ++
          (if doSync then [SetPwmLdok p true] else []) ++
          (if true && r then [Start p] else [])).
  split; [exact E | split; [| split]].
  - rewrite !in_app_iff. split.
    + intros [H | [H | [H | H]]].
      * destruct doSync; simpl in H; intuition discriminate.
      * destruct (Hcalls _ H) as [i [b Hb]]. discriminate.
      * destruct doSync; simpl in H; intuition discriminate.
      * destruct r; simpl in H; [reflexivity | destruct H].
    + intros ->. right. right. right. now left.
  - split.
    + intros Htrue tm i x y b Hin.
      rewrite !in_app_iff in Hin.
      destruct Hin as [H | [H | [H | H]]].
      * destruct doSync; simpl in H; intuition discriminate.
      * rewrite Htrue in Hr. symmetry in Hr.
        rewrite forallb_forall in Hr. apply (Hr _ H).
      * destruct doSync; simpl in H; intuition discriminate.
      * destruct r; simpl in H; intuition discriminate.
    + intros Hall. rewrite Hr. apply forallb_forall.
      intros e He. destruct (Hcalls _ He) as [i [b ->]]. simpl.
      apply (Hall (m_tmidx (this s)) i false false b).
      rewrite !in_app_iff. right. now left.
  - rewrite E. unfold begin_journal.
    rewrite !counters_running_app.
    assert (Hq : forall run0,
              counters_running p run0 calls = run0).
    { intros run0. apply counters_running_quiet.
      intros e He. destruct (Hcalls _ He) as [i [b ->]].
      split; discriminate. }
    assert (Hl : forall run0 v,
              counters_running p run0
                (if doSync then [SetPwmLdok p v] else []) = run0).
    { intros run0 v. destruct doSync; [| reflexivity].
      destruct p as [n]. reflexivity. }
    rewrite Hl, Hq, Hl.
    destruct p as [n]. destruct r; simpl; now rewrite Nat.eqb_refl.
Qed.

(** ** Timer::updateSetting *)

(** C2, as the specification states it, fails: on Timer unit 2 with three
    present submodules, begin (false, true) opens the load-ok window first
    and closes it last, but the journal of updateSetting (true) neither
    starts by opening the window nor holds any load-ok entry at all. *)
Lemma updateSetting_window_counterexample :
  window_around (RegisterBlock 2)
    (emitted (begin false true) (state_of sm_good sm_good sm_good)) /\
  ~ window_around (RegisterBlock 2)
      (emitted (updateSetting true) (state_of sm_good sm_good sm_good)) /\
  existsb is_ldok
    (emitted (updateSetting true) (state_of sm_good sm_good sm_good)) = false.
Proof.
  split; [| split].
  - exists [SmBegin 2 0 false false true; SmBegin 2 1 false false true;
            SmBegin 2 2 false false true].
    reflexivity.
  - intros [inner H]. vm_compute in H. discriminate.
  - reflexivity.
Qed.

(** C2 (amended): Timer::updateSetting (doSync) never touches the load-ok
    flag itself.  All it does is call updateSetting on every present
    submodule of the Timer, exactly once each, in slot order and whatever
    the earlier calls returned, handing each the caller's doSync unchanged;
    it makes no other call, its result is the conjunction of the values
    returned, and the Timer object and the slot table are left as they
    were. *)
Theorem updateSetting_hands_sync_down (doSync : bool) (s : State) :
  (forall e, In e (emitted (updateSetting doSync) s) ->
     exists i b,
       e = SmUpdateSetting (m_tmidx (this s)) i doSync b /\
       i < NofSubmodules /\ slot (SmList s) (m_tmidx (this s)) i <> None) /\
  map ev_slot (emitted (updateSetting doSync) s) =
    map Some (present_slots s) /\
  (forall i, i < NofSubmodules ->
     slot (SmList s) (m_tmidx (this s)) i <> None ->
     exists b,
       In (SmUpdateSetting (m_tmidx (this s)) i doSync b)
          (emitted (updateSetting doSync) s)) /\
  existsb is_ldok (emitted (updateSetting doSync) s) = false /\
  result (updateSetting doSync) s =
    forallb ev_ok (emitted (updateSetting doSync) s) /\
  snd (updateSetting doSync s) =
    add_events s (emitted (updateSetting doSync) s).
Proof.
  destruct (updateSetting_emitted doSync s) as [evs [-> [HS HT]]].
  assert (Hent : forall e, In e evs ->
     exists i b,
       e = SmUpdateSetting (m_tmidx (this s)) i doSync b /\
       i < NofSubmodules /\ slot (SmList s) (m_tmidx (this s)) i <> None).
  { intros e He.
    destruct (ut_entries _ _ _ _ _ _ _ HT _ He) as [i [b [-> [Hi Hp]]]].
    apply in_seq in Hi. exists i, b. repeat split; auto. lia. }
  split; [exact Hent | split; [| split; [| split; [| split]]]].
  - exact (ut_slots _ _ _ _ _ _ _ HT).
  - intros i Hi Hp.
    apply (ut_complete _ _ _ _ _ _ _ HT); [apply in_seq; lia | exact Hp].
  - destruct (existsb is_ldok evs) eqn:E; [| reflexivity].
    apply existsb_exists in E. destruct E as [e [He Hl]].
    destruct (Hent _ He) as [i [b [-> _]]]. discriminate.
  - now rewrite (ut_result _ _ _ _ _ _ _ HT).
  - exact HS.
Qed.

(** ** The load-ok window *)

(** C4: whatever the submodules return, begin (doStart, true) opens the
    load-ok window of its register block and has closed it again when it
    returns, whether the window was open or closed before; and neither
    begin nor updateSetting, with any arguments, returns with a window it
    opened still open. *)
Theorem window_closed_on_return (doStart doSync : bool) (s : State)
  (open : bool) :
  In (SetPwmLdok (m_ptr (this s)) false) (emitted (begin doStart true) s) /\
  window_open (m_ptr (this s)) open (emitted (begin doStart true) s) = false /\
  window_open (m_ptr (this s)) false (emitted (begin doStart doSync) s)
    = false /\
  window_open (m_ptr (this s)) false (emitted (updateSetting doSync) s)
    = false.
Proof.
  assert (Hb : forall dy o,
    window_open (m_ptr (this s)) o (emitted (begin doStart dy) s) =
    if dy then false else o).
  { intros dy o.
    destruct (begin_emitted doStart dy s) as [calls [-> HT]].
    unfold begin_journal. rewrite !window_open_app.
    assert (Hq : forall o', window_open (m_ptr (this s)) o' calls = o').
    { intros o'. apply window_open_quiet. intros e He.
      destruct (bt_entries _ _ _ _ _ _ HT _ He) as [i [b [-> _]]].
      reflexivity. }
    assert (Hs : forall (c : bool) o' e,
              is_ldok e = false ->
              window_open (m_ptr (this s)) o' (if c then [e] else []) = o').
    { intros c o' e He. apply window_open_quiet.
      intros e' He'. destruct c; simpl in He'; [| destruct He'].
      destruct He' as [<- | []]. exact He. }
    rewrite (Hs doStart), Hq by reflexivity.
    destruct dy; cbv iota.
    - rewrite Hs by reflexivity. now rewrite window_open_set.
    - rewrite Hs by reflexivity. reflexivity. }
  split; [| split; [| split]].
  - destruct (begin_emitted doStart true s) as [calls [-> _]].
    unfold begin_journal. rewrite !in_app_iff. right. left. now left.
  - apply (Hb true).
  - rewrite Hb. now destruct doSync.
  - destruct (updateSetting_emitted doSync s) as [evs [-> [_ HT]]].
    apply window_open_quiet. intros e He.
    destruct (ut_entries _ _ _ _ _ _ _ HT _ He) as [i [b [-> _]]].
    reflexivity.
Qed.

(** ** Timer::setupFaults *)

Lemma land_3_mod_4 (n : Z) : Z.land n 3 = (n mod 4)%Z.
Proof.
  change 3%Z with (Z.ones 2). rewrite Z.land_ones by lia. reflexivity.
Qed.

Lemma setupFaults_unfold faultNum faultConfig faultPin s :
  setupFaults faultNum faultConfig faultPin s =
  if (Z.land faultNum 3 =? 0)%Z then
    (tt, add_events s
           ((if (0 <? faultPin)%Z
             then [XbarConnect faultPin
                     (XBarFaultOutput_at (m_tmidx (this s)) faultNum)]
             else []) ++
            [PWM_SetupFaults (m_ptr (this s)) faultNum
               (kPwmConfig faultConfig)]))
  else (tt, s).
Proof.
  unfold setupFaults.
  destruct (Z.land faultNum 3 =? 0)%Z; [| reflexivity].
  destruct (0 <? faultPin)%Z;
    unfold when, tmidx, ptr, bind, gets, emit, ret;
    cbn [this m_ptr m_tmidx add_events fst snd];
    rewrite ?add_events_app; reflexivity.
Qed.

Lemma XBarFaultOutput_row_end (tm : nat) (faultNum : Z) :
  (3 < faultNum)%Z -> XBarFaultOutput_at tm faultNum = None.
Proof.
  intros H. unfold XBarFaultOutput_at.
  destruct (nth_error XBarFaultOutput tm) as [row|] eqn:E; [| reflexivity].
  destruct (faultNum <? 0)%Z; [reflexivity |].
  apply nth_error_None.
  assert (Hlen : length row = 4).
  { do 4 (destruct tm as [|tm]; [inversion E; reflexivity |]).
    destruct tm; discriminate. }
  rewrite Hlen. lia.
Qed.

(** C5: setupFaults with a faultNum that is not a multiple of 4 does
    nothing at all: the state comes back as it was, so neither a routing
    request nor a fault record is journalled; with a multiple of 4 the fault
    record is applied to the register block of the Timer. *)
Theorem setupFaults_alignment_guard (faultNum : Z) (faultConfig : FaultConfig)
  (faultPin : Z) (s : State) :
  ((faultNum mod 4)%Z <> 0%Z ->
     snd (setupFaults faultNum faultConfig faultPin s) = s /\
     emitted (setupFaults faultNum faultConfig faultPin) s = []) /\
  ((faultNum mod 4)%Z = 0%Z ->
     In (PWM_SetupFaults (m_ptr (this s)) faultNum (kPwmConfig faultConfig))
        (emitted (setupFaults faultNum faultConfig faultPin) s)).
Proof.
  split; intros H.
  - assert (E : setupFaults faultNum faultConfig faultPin s = (tt, s)).
    { rewrite setupFaults_unfold, land_3_mod_4.
      destruct (Z.eqb_spec (faultNum mod 4) 0); [contradiction | reflexivity]. }
    split; [now rewrite E |].
    apply emitted_of_add_events. rewrite E. simpl.
    now rewrite add_events_nil.
  - erewrite emitted_of_add_events.
    2:{ rewrite setupFaults_unfold, land_3_mod_4, H. reflexivity. }
    apply in_or_app. right. now left.
Qed.

Lemma setupFaults_alignment_guard_witness :
  emitted (setupFaults 5%Z sample_fault 21%Z)
    (state_of sm_good sm_good sm_good) = [] /\
  In (PWM_SetupFaults (RegisterBlock 2) 8%Z 9%Z)
     (emitted (setupFaults 8%Z sample_fault 21%Z)
        (state_of sm_good sm_good sm_good)).
Proof.
  split.
  - apply (proj1 (setupFaults_alignment_guard 5%Z sample_fault 21%Z
                    (state_of sm_good sm_good sm_good))).
    vm_compute. discriminate.
  - apply (proj2 (setupFaults_alignment_guard 8%Z sample_fault 21%Z
                    (state_of sm_good sm_good sm_good))).
    reflexivity.
Defined.

(** What does hold of the routing: for fault channel 0 of a Timer of the
    registry the request goes to the table entry of that Timer, and without
    a positive pin only the fault record is applied. *)
Lemma setupFaults_channel_0 (faultConfig : FaultConfig) (faultPin : Z)
  (s : State) :
  m_tmidx (this s) < NofTimers ->
  (0 < faultPin)%Z ->
  routed_to_table_entry (m_tmidx (this s)) 0 faultPin
    (emitted (setupFaults 0 faultConfig faultPin) s).
Proof.
  intros Htm Hpin.
  erewrite emitted_of_add_events.
  2:{ rewrite setupFaults_unfold. simpl Z.eqb. cbv iota.
      apply Z.ltb_lt in Hpin. rewrite Hpin. reflexivity. }
  unfold routed_to_table_entry, NofTimers in *.
  destruct (m_tmidx (this s)) as [|[|[|[|n]]]]; try lia;
    eexists; (split; [reflexivity | now left]).
Qed.

Lemma setupFaults_without_pin (faultNum : Z) (faultConfig : FaultConfig)
  (faultPin : Z) (s : State) :
  (faultNum mod 4)%Z = 0%Z ->
  (faultPin <= 0)%Z ->
  emitted (setupFaults faultNum faultConfig faultPin) s =
  [PWM_SetupFaults (m_ptr (this s)) faultNum (kPwmConfig faultConfig)].
Proof.
  intros Hal Hpin.
  apply emitted_of_add_events.
  rewrite setupFaults_unfold, land_3_mod_4, Hal.
  destruct (Z.ltb_spec 0 faultPin); [lia | reflexivity].
Qed.

(** C6 fails on the code: on Timer unit 2, setupFaults with faultNum 4 and
    faultPin 7 passes the guard and asks for the entry at column 4 of a row
    that has columns 0..3; the routing request carries no table entry, and
    the fault record is applied all the same. *)
Theorem setupFaults_routes_outside_table :
  XBarFaultOutput_at 2 4%Z = None /\
  emitted (setupFaults 4%Z sample_fault 7%Z)
    (state_of sm_good sm_good sm_good) =
    [XbarConnect 7%Z None; PWM_SetupFaults (RegisterBlock 2) 4%Z 9%Z] /\
  ~ routed_to_table_entry 2 4%Z 7%Z
      (emitted (setupFaults 4%Z sample_fault 7%Z)
         (state_of sm_good sm_good sm_good)).
Proof.
  split; [reflexivity | split; [reflexivity |]].
  intros [out [H _]]. discriminate.
Qed.

(** C9: a faultNum that is a multiple of 4 and larger than 3 passes the
    guard of setupFaults, but the row of the crossbar table has no entry at
    that position; with a positive faultPin the routing request is made
    with that missing entry, and the fault record is then applied. *)
Theorem setupFaults_table_overrun (faultNum : Z) (faultConfig : FaultConfig)
  (faultPin : Z) (s : State) :
  (faultNum mod 4)%Z = 0%Z ->
  (3 < faultNum)%Z ->
  (0 < faultPin)%Z ->
  (Z.land faultNum 3 =? 0)%Z = true /\
  XBarFaultOutput_at (m_tmidx (this s)) faultNum = None /\
  emitted (setupFaults faultNum faultConfig faultPin) s =
    [XbarConnect faultPin None;
     PWM_SetupFaults (m_ptr (this s)) faultNum (kPwmConfig faultConfig)].
Proof.
  intros Hal Hbig Hpin.
  assert (Hg : (Z.land faultNum 3 =? 0)%Z = true)
    by (rewrite land_3_mod_4, Hal; reflexivity).
  split; [exact Hg | split; [now apply XBarFaultOutput_row_end |]].
  apply emitted_of_add_events.
  rewrite setupFaults_unfold, Hg.
  apply Z.ltb_lt in Hpin. rewrite Hpin.
  now rewrite XBarFaultOutput_row_end.
Qed.

Lemma setupFaults_table_overrun_witness :
  (Z.land 8 3 =? 0)%Z = true /\
  XBarFaultOutput_at 0 8%Z = None /\
  emitted (setupFaults 8%Z sample_fault 21%Z)
    {| this := Timer_new Pwm1; SmList := []; journal := [] |} =
    [XbarConnect 21%Z None; PWM_SetupFaults (RegisterBlock 0) 8%Z 9%Z].
Proof.
  apply (setupFaults_table_overrun 8%Z sample_fault 21%Z
           {| this := Timer_new Pwm1; SmList := []; journal := [] |});
    [reflexivity | lia | lia].
Defined.

(** ** The Timer object over its lifetime *)

Lemma only_emits_begin doStart doSync : only_emits (begin doStart doSync).
Proof.
  intros s. destruct (begin_trace doStart doSync s) as [calls [H _]]. eauto.
Qed.

Lemma only_emits_updateSetting doSync : only_emits (updateSetting doSync).
Proof.
  intros s. destruct (updateSetting_emitted doSync s) as [evs [_ [H _]]].
  eauto.
Qed.

Lemma only_emits_setupFaults n c p : only_emits (setupFaults n c p).
Proof.
  intros s. rewrite setupFaults_unfold.
  destruct (Z.land n 3 =? 0)%Z; simpl; eauto.
  exists []. now rewrite add_events_nil.
Qed.

#[local] Hint Resolve only_emits_begin only_emits_updateSetting
  only_emits_setupFaults only_emits_for_each : emits.

(** Every public call other than enable only appends to the journal. *)
Lemma invoke_only_emits (c : Call) :
  (forall value, c <> Call_enable value) -> only_emits (invoke c).
Proof.
  intros H. destruct c; simpl;
    unfold setupLevel, setupDeadtime, setupOutputEnable,
      setupDutyCyclePercent, setupFaultState;
    auto 6 with emits.
  now destruct (H value).
Qed.

(** enable appends to the journal and then stores its argument. *)
Lemma enable_state (value : bool) (s : State) :
  exists evs, snd (enable value s) = with_isenabled value (add_events s evs).
Proof.
  unfold enable, bind.
  destruct (only_emits_for_each (seq 0 NofSubmodules)
              (call_void (fun tm i => SmEnable tm i value))
              (only_emits_call_void _) s) as [evs H].
  destruct (for_each_submodule _ _ s) as [u s1]. simpl in H. subst s1.
  exists evs. reflexivity.
Qed.

Lemma invoke_frame (c : Call) (s : State) :
  m_tmidx (this (snd (invoke c s))) = m_tmidx (this s) /\
  m_ptr (this (snd (invoke c s))) = m_ptr (this s) /\
  SmList (snd (invoke c s)) = SmList s /\
  m_isenabled (this (snd (invoke c s))) =
    last_enable [c] (m_isenabled (this s)).
Proof.
  assert (Hother : (forall value, c <> Call_enable value) ->
            m_tmidx (this (snd (invoke c s))) = m_tmidx (this s) /\
            m_ptr (this (snd (invoke c s))) = m_ptr (this s) /\
            SmList (snd (invoke c s)) = SmList s /\
            m_isenabled (this (snd (invoke c s))) = m_isenabled (this s)).
  { intros H. destruct (invoke_only_emits c H s) as [evs ->]. simpl. auto. }
  destruct c; try (apply Hother; discriminate).
  simpl invoke. destruct (enable_state value s) as [evs ->]. simpl. auto.
Qed.

(** C8: over any sequence of public calls the unit index, the register
    block handle and the submodule table stay as they were; the enabled
    flag ends as the argument of the last enable in the sequence, and as it
    was if the sequence has none. *)
Theorem timer_identity_is_fixed (cs : list Call) (s : State) :
  m_tmidx (this (snd (invoke_all cs s))) = m_tmidx (this s) /\
  m_ptr (this (snd (invoke_all cs s))) = m_ptr (this s) /\
  SmList (snd (invoke_all cs s)) = SmList s /\
  m_isenabled (this (snd (invoke_all cs s))) =
    last_enable cs (m_isenabled (this s)).
Proof.
  revert s. induction cs as [|c rest IH]; intros s.
  - simpl. auto.
  - assert (E : invoke_all (c :: rest) s = invoke_all rest (snd (invoke c s))).
    { simpl. unfold bind. now destruct (invoke c s). }
    rewrite E.
    destruct (IH (snd (invoke c s))) as (H1 & H2 & H3 & H4).
    destruct (invoke_frame c s) as (F1 & F2 & F3 & F4).
    rewrite H1, H2, H3, H4, F1, F2, F3, F4.
    repeat split. destruct c; reflexivity.
Qed.

(** C10: a Timer built for any unit index reports itself enabled, and so
    does each of the four Timers of the registry, which are the Timers of
    units 0 to 3. *)
Theorem fresh_timer_is_enabled (index : nat) :
  isEnabled (Timer_new index) = true /\
  m_isenabled (Timer_new index) = true /\
  length TMF = NofTimers /\
  map m_tmidx TMF = seq 0 NofTimers /\
  Forall (fun t => isEnabled t = true) TMF.
Proof.
  repeat split. repeat constructor.
Qed.

(** ** The broadcasts, entry by entry *)

Lemma for_each_call_void (e : nat -> nat -> Event) (slots : list nat) :
  forall s,
    for_each_submodule slots (call_void e) s =
    (tt, add_events s
           (map (e (m_tmidx (this s)))
              (filter (occupied (slot (SmList s) (m_tmidx (this s))))
                 slots))).
Proof.
  induction slots as [|i rest IH]; intros s.
  - simpl. unfold ret. now rewrite add_events_nil.
  - cbn [for_each_submodule filter].
    unfold bind at 1. unfold SmList_at at 1, gets at 1.
    unfold occupied at 1.
    destruct (slot (SmList s) (m_tmidx (this s)) i) as [sm|].
    + unfold bind at 1. unfold call_void, tmidx, bind, gets, emit.
      rewrite IH. cbn [this SmList add_events m_tmidx map].
      now rewrite add_events_app.
    + unfold bind, ret. apply IH.
Qed.

(** X1: enable (value) calls enable (value) on every present submodule of
    the Timer, once each and in slot order, calls nothing else, and then
    stores value as the enabled flag; index, handle and slot table stay. *)
Theorem enable_broadcasts_then_stores (value : bool) (s : State) :
  enable value s =
  (tt, with_isenabled value
         (add_events s
            (map (fun i => SmEnable (m_tmidx (this s)) i value)
               (present_slots s)))).
Proof.
  unfold enable, bind. rewrite for_each_call_void. reflexivity.
Qed.

(** X2: each of setupLevel, setupDeadtime, setupOutputEnable,
    setupDutyCyclePercent and setupFaultState hands its argument unchanged
    to every present submodule, once each and in slot order, and does
    nothing else: the Timer object, the enabled flag included, is as
    before. *)
Theorem setup_broadcasts (s : State) :
  (forall level,
     setupLevel level s =
     (tt, add_events s
            (map (fun i => SmSetupLevel (m_tmidx (this s)) i level)
               (present_slots s)))) /\
  (forall deadtimeValue,
     setupDeadtime deadtimeValue s =
     (tt, add_events s
            (map (fun i => SmSetupDeadtime (m_tmidx (this s)) i deadtimeValue)
               (present_slots s)))) /\
  (forall activate,
     setupOutputEnable activate s =
     (tt, add_events s
            (map (fun i => SmSetupOutputEnable (m_tmidx (this s)) i activate)
               (present_slots s)))) /\
  (forall dutyCyclePercent,
     setupDutyCyclePercent dutyCyclePercent s =
     (tt, add_events s
            (map (fun i =>
                    SmSetupDutyCyclePercent (m_tmidx (this s)) i
                      dutyCyclePercent)
               (present_slots s)))) /\
  (forall faultState,
     setupFaultState faultState s =
     (tt, add_events s
            (map (fun i => SmSetupFaultState (m_tmidx (this s)) i faultState)
               (present_slots s)))).
Proof.
  repeat split; intros;
    unfold setupLevel, setupDeadtime, setupOutputEnable,
      setupDutyCyclePercent, setupFaultState;
    now rewrite for_each_call_void.
Qed.

(** ** updateSetting, entry by entry *)

(** X3: updateSetting calls the present submodules once each, in slot
    order, whatever they return; it returns false exactly when one of those
    calls returned false. *)
Theorem updateSetting_calls_each_present_once (doSync : bool) (s : State) :
  map ev_slot (emitted (updateSetting doSync) s) =
    map Some (present_slots s) /\
  (result (updateSetting doSync) s = false <->
   exists i,
     In (SmUpdateSetting (m_tmidx (this s)) i doSync false)
        (emitted (updateSetting doSync) s)).
Proof.
  destruct (updateSetting_emitted doSync s) as [evs [-> [_ HT]]].
  split; [exact (ut_slots _ _ _ _ _ _ _ HT) |].
  rewrite (ut_result _ _ _ _ _ _ _ HT). cbn [andb].
  split.
  - intros H.
    destruct (forallb ev_ok evs) eqn:E; [discriminate |].
    assert (Hex : exists e, In e evs /\ ev_ok e = false).
    { clear - E. induction evs as [|e evs IH]; [discriminate |].
      simpl in E. destruct (ev_ok e) eqn:He.
      - destruct (IH E) as [e' [H1 H2]]. exists e'. split; [now right | auto].
      - exists e. split; [now left | auto]. }
    destruct Hex as [e [He Hok]].
    destruct (ut_entries _ _ _ _ _ _ _ HT _ He) as [i [b [-> _]]].
    simpl in Hok. subst b. now exists i.
  - intros [i Hi].
    destruct (forallb ev_ok evs) eqn:E; [| reflexivity].
    rewrite forallb_forall in E. apply E in Hi. discriminate.
Qed.

(** ** begin, entry by entry *)

(** X4: when begin returns true, its journal is fully determined: the
    optional stop, the optional opening of the window, one begin (false,
    false) answered true for every present submodule in slot order, the
    optional closing of the window, and the start if doStart. *)
Theorem begin_success_journal (doStart doSync : bool) (s : State) :
  result (begin doStart doSync) s = true ->
  emitted (begin doStart doSync) s =
  begin_journal (m_ptr (this s)) doStart doSync
    (map (fun i => SmBegin (m_tmidx (this s)) i false false true)
       (present_slots s))
    true.
Proof.
  intros Hr.
  destruct (begin_emitted doStart doSync s) as [calls [-> HT]].
  rewrite Hr in *.
  destruct (bt_shape _ _ _ _ _ HT) as [[_ ->] | [Hf _]];
    [reflexivity | discriminate].
Qed.

Lemma begin_success_journal_witness :
  emitted (begin true false) (state_of sm_good sm_good sm_good) =
  begin_journal (RegisterBlock 2) true false
    [SmBegin 2 0 false false true; SmBegin 2 1 false false true;
     SmBegin 2 2 false false true]
    true.
Proof.
  apply (begin_success_journal true false (state_of sm_good sm_good sm_good)).
  reflexivity.
Defined.

(** X5: when begin returns false, the present slots split around the one
    that failed: the submodules before it were called and answered true, it
    was called and answered false, the ones after it were not called; the
    window, if opened, is closed again and there is no start. *)
Theorem begin_failure_journal (doStart doSync : bool) (s : State) :
  result (begin doStart doSync) s = false ->
  exists pre i post,
    present_slots s = pre ++ i :: post /\
    emitted (begin doStart doSync) s =
    begin_journal (m_ptr (this s)) doStart doSync
      (map (fun j => SmBegin (m_tmidx (this s)) j false false true) pre ++
       [SmBegin (m_tmidx (this s)) i false false false])
      false.
Proof.
  intros Hr.
  destruct (begin_emitted doStart doSync s) as [calls [-> HT]].
  rewrite Hr in *.
  destruct (bt_shape _ _ _ _ _ HT)
    as [[Ht _] | [_ [pre [i [post [E ->]]]]]]; [discriminate |].
  exists pre, i, post. split; [exact E | reflexivity].
Qed.

Lemma begin_failure_journal_witness :
  exists pre i post,
    present_slots (state_of sm_good sm_bad sm_good) = pre ++ i :: post /\
    emitted (begin true true) (state_of sm_good sm_bad sm_good) =
    begin_journal (RegisterBlock 2) true true
      (map (fun j => SmBegin 2 j false false true) pre ++
       [SmBegin 2 i false false false])
      false.
Proof.
  apply (begin_failure_journal true true (state_of sm_good sm_bad sm_good)).
  reflexivity.
Defined.

(** X6: a Timer without any submodule in its slots (or whose index lies
    outside the slot table): begin returns true and journals only its own
    stop, window and start entries, so begin (true, _) starts the counters
    although nothing was configured; updateSetting returns true and changes
    nothing; enable calls nobody and only stores the flag. *)
Theorem timer_without_submodules (s : State) :
  present_slots s = [] ->
  (forall doStart doSync,
     result (begin doStart doSync) s = true /\
     emitted (begin doStart doSync) s =
       begin_journal (m_ptr (this s)) doStart doSync [] true) /\
  (forall doSync, updateSetting doSync s = (true, s)) /\
  (forall value, enable value s = (tt, with_isenabled value s)).
Proof.
  intros Hno. split; [| split].
  - intros doStart doSync.
    destruct (begin_emitted doStart doSync s) as [calls [E HT]].
    destruct (bt_shape _ _ _ _ _ HT)
      as [[Ht Hc] | [_ [pre [i [post [Hs _]]]]]].
    + fold (present_slots s) in Hc. rewrite Hno in Hc. simpl in Hc.
      rewrite E, Ht, Hc. split; reflexivity.
    + fold (present_slots s) in Hs. rewrite Hno in Hs.
      destruct pre; discriminate.
  - intros doSync.
    destruct (updateSetting_emitted doSync s) as [evs [_ [HS HT]]].
    assert (Hn : evs = []).
    { apply ut_slots in HT. fold (present_slots s) in HT.
      rewrite Hno in HT. destruct evs; [reflexivity | discriminate]. }
    subst evs. rewrite add_events_nil in HS.
    apply ut_result in HT. simpl in HT.
    unfold result in HT.
    destruct (updateSetting doSync s) as [r s'].
    simpl in HS, HT. now subst.
  - intros value. unfold enable, bind. rewrite for_each_call_void.
    fold (present_slots s). rewrite Hno. simpl.
    now rewrite add_events_nil.
Qed.

Lemma timer_without_submodules_witness :
  (forall doStart doSync,
     result (begin doStart doSync) state_bare = true /\
     emitted (begin doStart doSync) state_bare =
       begin_journal (RegisterBlock 1) doStart doSync [] true) /\
  (forall doSync, updateSetting doSync state_bare = (true, state_bare)) /\
  (forall value,
     enable value state_bare = (tt, with_isenabled value state_bare)).
Proof.
  apply (timer_without_submodules state_bare).
  reflexivity.
Defined.

(** X7: without doStart, begin journals neither a stop nor a start of any
    register block, so the counters run or rest as before, success or not;
    without doSync it journals no load-ok entry; with both flags off its
    journal holds submodule calls only. *)
Theorem begin_flags_off (doStart doSync : bool) (s : State) :
  (forall q, ~ In (Stop q) (emitted (begin false doSync) s) /\
             ~ In (Start q) (emitted (begin false doSync) s)) /\
  (forall run,
     counters_running (m_ptr (this s)) run
       (emitted (begin false doSync) s) = run) /\
  existsb is_ldok (emitted (begin doStart false) s) = false /\
  forallb is_sm_begin (emitted (begin false false) s) = true.
Proof.
  assert (Hc : forall a b calls,
            BeginTrace (m_tmidx (this s))
              (slot (SmList s) (m_tmidx (this s)))
              (seq 0 NofSubmodules) true calls (result (begin a b) s) ->
            forall e, In e calls -> is_sm_begin e = true).
  { intros a b calls HT e He.
    destruct (bt_entries _ _ _ _ _ _ HT _ He) as [i [r [-> _]]].
    reflexivity. }
  split; [| split; [| split]].
  - intros q.
    destruct (begin_emitted false doSync s) as [calls [-> HT]].
    unfold begin_journal. cbn [andb app].
    split; intros H; rewrite !in_app_iff in H;
      destruct H as [H | [H | [H | H]]];
      try (destruct doSync; simpl in H; intuition discriminate);
      try (apply (Hc _ _ _ HT) in H; discriminate);
      destruct H.
  - intros run.
    destruct (begin_emitted false doSync s) as [calls [-> HT]].
    apply counters_running_quiet. intros e He.
    unfold begin_journal in He. cbn [andb app] in He.
    rewrite !in_app_iff in He.
    destruct He as [H | [H | [H | H]]];
      try (destruct doSync; simpl in H;
           [destruct H as [<- | []]; split; discriminate | destruct H]);
      try (apply (Hc _ _ _ HT) in H; destruct e; try discriminate;
           split; discriminate);
      destruct H.
  - destruct (begin_emitted doStart false s) as [calls [-> HT]].
    destruct (existsb _ _) eqn:E; [| reflexivity].
    apply existsb_exists in E. destruct E as [e [He Hl]].
    unfold begin_journal in He. cbn [app] in He.
    rewrite !in_app_iff in He.
    destruct He as [H | [H | H]].
    + destruct doStart; simpl in H; [| destruct H].
      destruct H as [<- | []]. discriminate.
    + apply (Hc _ _ _ HT) in H. destruct e; discriminate.
    + destruct (doStart && _); simpl in H; [| destruct H].
      destruct H as [<- | []]. discriminate.
  - destruct (begin_emitted false false s) as [calls [-> HT]].
    unfold begin_journal. cbn [andb app]. rewrite app_nil_r.
    apply forallb_forall. exact (Hc _ _ _ HT).
Qed.

(** ** Which table entries setupFaults can reach *)

Lemma setupFaults_emitted faultNum faultConfig faultPin s :
  emitted (setupFaults faultNum faultConfig faultPin) s =
  if (Z.land faultNum 3 =? 0)%Z then
    (if (0 <? faultPin)%Z
     then [XbarConnect faultPin
             (XBarFaultOutput_at (m_tmidx (this s)) faultNum)]
     else []) ++
    [PWM_SetupFaults (m_ptr (this s)) faultNum (kPwmConfig faultConfig)]
  else [].
Proof.
  apply emitted_of_add_events. rewrite setupFaults_unfold.
  destruct (Z.land faultNum 3 =? 0)%Z; simpl;
    [reflexivity | now rewrite add_events_nil].
Qed.

(** X8: the only request setupFaults ever makes with an entry of the
    crossbar table is for faultNum 0 with a positive faultPin, and it
    carries the channel 0 entry of the Timer's own row, with that pin;
    here a read outside the row yields no entry.  The channel numbers 1, 2
    and 3, whose entries the table holds, do nothing at all. *)
Theorem setupFaults_table_entry_iff (faultNum : Z) (faultConfig : FaultConfig)
  (faultPin : Z) (s : State) :
  (forall pin out,
     In (XbarConnect pin (Some out))
        (emitted (setupFaults faultNum faultConfig faultPin) s) <->
     faultNum = 0%Z /\ (0 < faultPin)%Z /\ pin = faultPin /\
     exists row,
       nth_error XBarFaultOutput (m_tmidx (this s)) = Some row /\
       nth_error row 0 = Some out) /\
  ((1 <= faultNum <= 3)%Z ->
   setupFaults faultNum faultConfig faultPin s = (tt, s)).
Proof.
  split.
  - intros pin out. rewrite setupFaults_emitted, land_3_mod_4. split.
    + destruct (Z.eqb_spec (faultNum mod 4) 0) as [Hal | Hnal];
        [| intros []].
      destruct (Z.ltb_spec 0 faultPin) as [Hpin | Hpin];
        [| simpl; intros [H | []]; discriminate].
      simpl. intros [H | [H | []]]; [| discriminate].
      injection H as -> Hat.
      assert (Hlow : (0 <= faultNum <= 3)%Z).
      { destruct (Z_lt_le_dec 3 faultNum) as [Hbig | Hle].
        - rewrite (XBarFaultOutput_row_end _ _ Hbig) in Hat. discriminate.
        - split; [| exact Hle].
          unfold XBarFaultOutput_at in Hat.
          destruct (nth_error XBarFaultOutput _); [| discriminate].
          destruct (Z.ltb_spec faultNum 0); [discriminate | lia]. }
      assert (faultNum = 0%Z) as ->.
      { assert (Hm : (faultNum mod 4 = faultNum)%Z)
          by (apply Z.mod_small; lia).
        lia. }
      repeat split; auto.
      unfold XBarFaultOutput_at in Hat.
      destruct (nth_error XBarFaultOutput (m_tmidx (this s))) as [row|];
        [| discriminate].
      exists row. split; [reflexivity | exact Hat].
    + intros (-> & Hpin & -> & row & Hrow & Hout).
      assert (Hat : XBarFaultOutput_at (m_tmidx (this s)) 0 = Some out)
        by (unfold XBarFaultOutput_at; rewrite Hrow; exact Hout).
      apply Z.ltb_lt in Hpin. rewrite Hpin, Hat. now left.
  - intros Hn. rewrite setupFaults_unfold, land_3_mod_4.
    assert (Hm : (faultNum mod 4 = faultNum)%Z) by (apply Z.mod_small; lia).
    destruct (Z.eqb_spec (faultNum mod 4) 0); [lia | reflexivity].
Qed.

Lemma setupFaults_table_entry_iff_witness :
  setupFaults 2%Z sample_fault 7%Z (state_of sm_good sm_good sm_good) =
  (tt, state_of sm_good sm_good sm_good) /\
  In (XbarConnect 7%Z (Some XBARA1_OUT_FLEXPWM3_FAULT0))
     (emitted (setupFaults 0%Z sample_fault 7%Z)
        (state_of sm_good sm_good sm_good)).
Proof.
  split.
  - apply (proj2 (setupFaults_table_entry_iff 2%Z sample_fault 7%Z
                    (state_of sm_good sm_good sm_good))).
    lia.
  - apply (proj1 (setupFaults_table_entry_iff 0%Z sample_fault 7%Z
                    (state_of sm_good sm_good sm_good)) 7%Z
             XBARA1_OUT_FLEXPWM3_FAULT0).
    split; [reflexivity | split; [lia | split; [reflexivity |]]].
    exists [XBARA1_OUT_FLEXPWM3_FAULT0; XBARA1_OUT_FLEXPWM3_FAULT1;
            XBARA1_OUT_FLEXPWM3_FAULT2; XBARA1_OUT_FLEXPWM3_FAULT3].
    split; reflexivity.
Defined.

(** ** The result of begin for submodules that answer alike every time *)

Lemma begin_loop_result_stable (s0 : State) (slots : list nat) :
  (forall i sm h,
     slot (SmList s0) (m_tmidx (this s0)) i = Some sm ->
     sm_begin sm h false false = sm_begin sm [] false false) ->
  forall s,
    SmList s = SmList s0 ->
    m_tmidx (this s) = m_tmidx (this s0) ->
    fst (begin_loop slots true s) = forallb (begin_answer s0) slots.
Proof.
  intros Hst. induction slots as [|i rest IH]; intros s HL Hi.
  - reflexivity.
  - cbn [forallb]. unfold begin_answer at 1.
    destruct (slot (SmList s0) (m_tmidx (this s0)) i) as [sm|] eqn:Hs.
    + assert (Hs' : slot (SmList s) (m_tmidx (this s)) i = Some sm)
        by (now rewrite HL, Hi).
      rewrite (begin_loop_present _ _ _ _ Hs').
      rewrite (Hst _ _ (journal s) Hs).
      destruct (sm_begin sm [] false false).
      * apply IH; assumption.
      * now rewrite begin_loop_false.
    + assert (Hs' : slot (SmList s) (m_tmidx (this s)) i = None)
        by (now rewrite HL, Hi).
      rewrite (begin_loop_absent _ _ _ Hs'). apply IH; assumption.
Qed.

(** X9: if the begin of every present submodule answers the same whatever
    happened before, the value Timer::begin returns is the conjunction of
    those answers over all slots, for every doStart and doSync: leaving the
    loop at the first failure does not change the value returned. *)
Theorem begin_result_is_conjunction (doStart doSync : bool) (s : State) :
  (forall i sm h,
     slot (SmList s) (m_tmidx (this s)) i = Some sm ->
     sm_begin sm h false false = sm_begin sm [] false false) ->
  result (begin doStart doSync) s =
  forallb (begin_answer s) (seq 0 NofSubmodules).
Proof.
  intros Hst. unfold result. rewrite begin_unfold. cbv zeta. cbn [fst].
  apply begin_loop_result_stable; [exact Hst | reflexivity | reflexivity].
Qed.

Lemma begin_result_is_conjunction_witness :
  result (begin true true) (state_of sm_good sm_bad sm_good) =
  forallb (begin_answer (state_of sm_good sm_bad sm_good))
    (seq 0 NofSubmodules).
Proof.
  apply (begin_result_is_conjunction true true
           (state_of sm_good sm_bad sm_good)).
  intros i sm h H.
  destruct i as [|[|[|[|[|i]]]]]; vm_compute in H; try discriminate;
    injection H as <-; reflexivity.
Defined.

(** The condition of X9 is needed: a submodule that answers by the length
    of the journal succeeds under begin (false, false) and fails under
    begin (true, true), two entries later. *)
Example begin_history_matters :
  result (begin false false) (state_of sm_good sm_good sm_tired) = true /\
  result (begin true true) (state_of sm_good sm_good sm_tired) = false.
Proof. split; reflexivity. Qed.

(** ** Order inside begin (_, true) *)

Lemma window_open_cons p open e l :
  window_open p open (e :: l) = window_open p (window_open p open [e]) l.
Proof.
  exact (window_open_app p open [e] l).
Qed.

Lemma prefix_of_calls (calls b l1 l2 : list Event) (e : Event) :
  (forall x, In x b -> is_sm_begin x = false) ->
  calls ++ b = l1 ++ e :: l2 ->
  is_sm_begin e = true ->
  exists l, calls = l1 ++ e :: l.
Proof.
  intros Hb. revert l1.
  induction calls as [|c cs IH]; intros l1 E He.
  - simpl in E. rewrite (Hb e) in He; [discriminate |].
    rewrite E. apply in_or_app. right. now left.
  - destruct l1 as [|x l1]; simpl in E; injection E as <- E.
    + now exists cs.
    + destruct (IH _ E He) as [l ->]. now exists l.
Qed.

Lemma calls_after_opening p (a calls b : list Event) :
  (forall x, In x a -> is_sm_begin x = false) ->
  (forall x, In x b -> is_sm_begin x = false) ->
  (forall x, In x calls -> is_ldok x = false) ->
  forall open l1 e l2,
    a ++ SetPwmLdok p false :: calls ++ b = l1 ++ e :: l2 ->
    is_sm_begin e = true ->
    window_open p open l1 = true.
Proof.
  intros Ha Hb Hc.
  induction a as [|x a IH]; intros open l1 e l2 E He.
  - destruct l1 as [|y l1]; simpl in E; injection E as <- E.
    + discriminate.
    + rewrite window_open_cons, window_open_set. simpl.
      destruct (prefix_of_calls _ _ _ _ _ Hb E He) as [l ->].
      apply window_open_quiet. intros z Hz. apply Hc.
      apply in_or_app. now left.
  - destruct l1 as [|y l1]; simpl in E; injection E as <- E.
    + rewrite (Ha x) in He; [discriminate | now left].
    + rewrite window_open_cons.
      apply (IH (fun z Hz => Ha z (or_intror Hz)) _ _ _ _ E He).
Qed.

(** X10: in begin (doStart, true) every submodule begin is journalled
    while the load-ok window of the Timer's register block is open,
    whether the window was open or closed when begin was entered. *)
Theorem begin_calls_inside_window (doStart : bool) (s : State) (open : bool)
  (l1 l2 : list Event) (e : Event) :
  emitted (begin doStart true) s = l1 ++ e :: l2 ->
  is_sm_begin e = true ->
  window_open (m_ptr (this s)) open l1 = true.
Proof.
  destruct (begin_emitted doStart true s) as [calls [-> HT]].
  unfold begin_journal. cbn [app]. intros E He.
  eapply calls_after_opening; [| | | exact E | exact He].
  - intros x Hx. destruct doStart; simpl in Hx; [| destruct Hx].
    destruct Hx as [<- | []]. reflexivity.
  - intros x [<- | Hx]; [reflexivity |].
    destruct (doStart && _); simpl in Hx; [| destruct Hx].
    destruct Hx as [<- | []]. reflexivity.
  - intros x Hx.
    destruct (bt_entries _ _ _ _ _ _ HT _ Hx) as [i [b [-> _]]].
    reflexivity.
Qed.

Lemma begin_calls_inside_window_witness :
  window_open (RegisterBlock 2) false
    [Stop (RegisterBlock 2); SetPwmLdok (RegisterBlock 2) false;
     SmBegin 2 0 false false true] = true.
Proof.
  apply (begin_calls_inside_window true (state_of sm_good sm_bad sm_good)
           false
           [Stop (RegisterBlock 2); SetPwmLdok (RegisterBlock 2) false;
            SmBegin 2 0 false false true]
           [SetPwmLdok (RegisterBlock 2) true]
           (SmBegin 2 1 false false false));
    reflexivity.
Defined.

(** X11: when begin (true, doSync) succeeds, the start is the last entry
    of its journal and the only start in it; with doSync the load-ok window
    is closed by then, without doSync it is as it was on entry. *)
Theorem begin_start_is_last (doSync : bool) (s : State) (open : bool) :
  result (begin true doSync) s = true ->
  exists l1,
    emitted (begin true doSync) s = l1 ++ [Start (m_ptr (this s))] /\
    ~ In (Start (m_ptr (this s))) l1 /\
    window_open (m_ptr (this s)) open l1 = if doSync then false else open.
Proof.
  intros Hr.
  destruct (begin_emitted true doSync s) as [calls [-> HT]].
  rewrite Hr in *. clear Hr.
  set (p := m_ptr (this s)).
  assert (Hcalls : forall x, In x calls -> is_sm_begin x = true).
  { intros x Hx.
    destruct (bt_entries _ _ _ _ _ _ HT _ Hx) as [i [b [-> _]]].
    reflexivity. }
  exists ([Stop p] ++ (if doSync then [SetPwmLdok p false] else []) ++
          calls ++ (if doSync then [SetPwmLdok p true] else [])).
  split; [| split].
  - unfold begin_journal. cbn [andb]. now rewrite <- !app_assoc.
  - rewrite !in_app_iff. intros [H | [H | [H | H]]].
    + destruct H as [H | []]. discriminate.
    + destruct doSync; simpl in H; intuition discriminate.
    + apply Hcalls in H. discriminate.
    + destruct doSync; simpl in H; intuition discriminate.
  - rewrite !window_open_app.
    assert (Hq : forall o, window_open p o calls = o).
    { intros o. apply window_open_quiet. intros x Hx.
      apply Hcalls in Hx. destruct x; try discriminate. reflexivity. }
    assert (Hs : forall o, window_open p o [Stop p] = o)
      by (intros o; apply window_open_quiet;
          intros x [<- | []]; reflexivity).
    rewrite Hs. destruct doSync.
    + rewrite Hq. now rewrite window_open_set.
    + apply Hq.
Qed.

Lemma begin_start_is_last_witness :
  exists l1,
    emitted (begin true true) (state_of sm_good sm_good sm_good) =
      l1 ++ [Start (RegisterBlock 2)] /\
    ~ In (Start (RegisterBlock 2)) l1 /\
    window_open (RegisterBlock 2) true l1 = false.
Proof.
  apply (begin_start_is_last true (state_of sm_good sm_good sm_good) true).
  reflexivity.
Defined.

(** ** What setupFaults leaves alone *)

(** X13: setupFaults calls no submodule, journals no stop, start or
    load-ok entry, makes at most two calls (the routing request, if any,
    before the fault record) and leaves the Timer object and the slot table
    as they were. *)
Theorem setupFaults_leaves_timer_alone (faultNum : Z)
  (faultConfig : FaultConfig) (faultPin : Z) (s : State) (open run : bool) :
  (forall e, In e (emitted (setupFaults faultNum faultConfig faultPin) s) ->
     ev_slot e = None) /\
  window_open (m_ptr (this s)) open
    (emitted (setupFaults faultNum faultConfig faultPin) s) = open /\
  counters_running (m_ptr (this s)) run
    (emitted (setupFaults faultNum faultConfig faultPin) s) = run /\
  length (emitted (setupFaults faultNum faultConfig faultPin) s) <= 2 /\
  this (snd (setupFaults faultNum faultConfig faultPin s)) = this s /\
  SmList (snd (setupFaults faultNum faultConfig faultPin s)) = SmList s.
Proof.
  rewrite setupFaults_emitted, setupFaults_unfold.
  destruct (Z.land faultNum 3 =? 0)%Z, (0 <? faultPin)%Z;
    cbn [app fst snd this SmList add_events length];
    (split; [intros e He; simpl in He; intuition (subst; reflexivity) |]);
    repeat split; auto.
Qed.

(** ** The load-ok window over a sequence of calls *)

Lemma emitted_of_add_events_enabled (value : bool) (s : State) :
  emitted (enable value) s =
  map (fun i => SmEnable (m_tmidx (this s)) i value) (present_slots s).
Proof.
  unfold emitted, enable, bind. rewrite for_each_call_void.
  simpl. apply skipn_length_app.
Qed.

Lemma journal_of_invoke (c : Call) (s : State) :
  journal (snd (invoke c s)) = journal s ++ emitted (invoke c) s.
Proof.
  assert (H : exists evs, journal (snd (invoke c s)) = journal s ++ evs).
  { assert (Hc : (exists value, c = Call_enable value) \/
                 (forall value, c <> Call_enable value))
      by (destruct c; try (right; discriminate); left; eauto).
    destruct Hc as [[value ->] | Hc].
    - simpl invoke. destruct (enable_state value s) as [evs ->].
      now exists evs.
    - destruct (invoke_only_emits c Hc s) as [evs ->]. now exists evs. }
  destruct H as [evs H]. unfold emitted. rewrite H.
  now rewrite skipn_length_app.
Qed.

Lemma journal_of_invoke_all (cs : list Call) :
  forall s,
    journal (snd (invoke_all cs s)) = journal s ++ emitted (invoke_all cs) s.
Proof.
  induction cs as [|c rest IH]; intros s.
  - unfold emitted. simpl. now rewrite skipn_all, app_nil_r.
  - assert (E : invoke_all (c :: rest) s = invoke_all rest (snd (invoke c s)))
      by (simpl; unfold bind; now destruct (invoke c s)).
    unfold emitted. rewrite E, IH, journal_of_invoke.
    rewrite <- app_assoc. now rewrite skipn_length_app.
Qed.

Lemma emitted_invoke_all_cons (c : Call) (rest : list Call) (s : State) :
  emitted (invoke_all (c :: rest)) s =
  emitted (invoke c) s ++ emitted (invoke_all rest) (snd (invoke c s)).
Proof.
  assert (E : invoke_all (c :: rest) s = invoke_all rest (snd (invoke c s)))
    by (simpl; unfold bind; now destruct (invoke c s)).
  unfold emitted at 1. rewrite E, journal_of_invoke_all, journal_of_invoke.
  rewrite <- app_assoc. now rewrite skipn_length_app.
Qed.

Lemma window_open_map_quiet {A : Type} p open (f : A -> Event) (l : list A) :
  (forall a, is_ldok (f a) = false) ->
  window_open p open (map f l) = open.
Proof.
  intros H. apply window_open_quiet. intros e He.
  apply in_map_iff in He. destruct He as [a [<- _]]. apply H.
Qed.

Lemma emitted_discard {A : Type} (m : M A) (s : State) :
  emitted (_ <- m ;; ret tt) s = emitted m s.
Proof.
  unfold emitted, bind, ret. now destruct (m s).
Qed.

Lemma window_closed_after_invoke (c : Call) (s : State) :
  window_open (m_ptr (this s)) false (emitted (invoke c) s) = false.
Proof.
  destruct c; simpl invoke.
  - rewrite emitted_discard.
    destruct (begin_emitted doStart doSync s) as [calls [-> HT]].
    unfold begin_journal. rewrite !window_open_app.
    assert (Hq : forall o, window_open (m_ptr (this s)) o calls = o).
    { intros o. apply window_open_quiet. intros e He.
      destruct (bt_entries _ _ _ _ _ _ HT _ He) as [i [b [-> _]]].
      reflexivity. }
    assert (Hs : forall (c : bool) o e,
              is_ldok e = false ->
              window_open (m_ptr (this s)) o (if c then [e] else []) = o).
    { intros c o e He. apply window_open_quiet.
      intros e' He'. destruct c; simpl in He'; [| destruct He'].
      destruct He' as [<- | []]. exact He. }
    rewrite (Hs doStart), Hq by reflexivity.
    destruct doSync; cbv iota; rewrite Hs by reflexivity;
      [now rewrite window_open_set | reflexivity].
  - erewrite emitted_of_add_events_enabled.
    apply window_open_map_quiet. reflexivity.
  - unfold setupLevel. erewrite emitted_of_add_events
      by (rewrite for_each_call_void; reflexivity).
    now apply window_open_map_quiet.
  - unfold setupDeadtime. erewrite emitted_of_add_events
      by (rewrite for_each_call_void; reflexivity).
    now apply window_open_map_quiet.
  - unfold setupOutputEnable. erewrite emitted_of_add_events
      by (rewrite for_each_call_void; reflexivity).
    now apply window_open_map_quiet.
  - unfold setupDutyCyclePercent. erewrite emitted_of_add_events
      by (rewrite for_each_call_void; reflexivity).
    now apply window_open_map_quiet.
  - unfold setupFaultState. erewrite emitted_of_add_events
      by (rewrite for_each_call_void; reflexivity).
    now apply window_open_map_quiet.
  - rewrite emitted_discard.
    destruct (updateSetting_emitted doSync s) as [evs [-> [_ HT]]].
    apply window_open_quiet. intros e He.
    destruct (ut_entries _ _ _ _ _ _ _ HT _ He) as [i [b [-> _]]].
    reflexivity.
  - rewrite setupFaults_emitted.
    destruct (Z.land faultNum 3 =? 0)%Z, (0 <? faultPin)%Z; reflexivity.
Qed.

(** X14: whatever public calls are made on a Timer, in whatever order and
    whatever the submodules return, the sequence as a whole returns with
    the load-ok window of the Timer's register block closed, provided it
    was closed at the start: no call leaves a window open for the next. *)
Theorem window_closed_after_any_calls (cs : list Call) (s : State) :
  window_open (m_ptr (this s)) false (emitted (invoke_all cs) s) = false.
Proof.
  revert s. induction cs as [|c rest IH]; intros s.
  - unfold emitted. simpl. now rewrite skipn_all.
  - rewrite emitted_invoke_all_cons, window_open_app.
    rewrite window_closed_after_invoke.
    destruct (invoke_frame c s) as (_ & Hp & _).
    rewrite <- Hp. apply IH.
Qed.

End eFlex.
